(** * Daily idle-performance report: a shallow embedding of [report_scripts.py]

    The script loads a table of driver activity, keeps the records of one
    calendar day, labels each record with a reporting shift (with the
    overnight rule), aggregates idle time per shift and driver, renders text
    tables and posts the report to a webhook in one or two messages.

    Conventions of the embedding.
    - A Python [str] is a [string] holding its UTF-8 bytes.  Byte-wise
      lexicographic order is code-point order, which is how Python compares
      strings; [py_len] and the slices count code points, not bytes.
    - Idle times are exact rationals ([Q]): the real-number reading of the
      script's floats.
    - A loaded record carries all four columns with their types
      (timestamp, shift code as text, driver, idle time).  A blank driver
      cell, which pandas reads as NaN, is [None]; blank cells of the other
      three columns are outside the record type.
    - A computation of the script is a trace of events (stdout lines,
      webhook posts, sleeps) together with a normal result or a raised
      exception.  The progress lines (step banners, timings, the list of
      shifts found) are left out of the trace; it keeps the no-data line,
      the overnight notice, the results of the sends and the error line.
    - What the script does not define itself and what no decimal reading
      fixes (the table loader, the date parser, [pd.to_numeric], the HTTP
      call, the process environment) is a field of the class [Runtime]. *)

From Stdlib Require Import String Ascii List Bool Arith ZArith QArith Qround Qabs Lia.
From Stdlib Require Import Sorting.Sorted Sorting.Permutation.
From Stdlib Require Import DecimalString Floats.
Import ListNotations.

Set Warnings "-inexact-float".

Local Open Scope string_scope.
Local Open Scope Z_scope.

(* ================================================================== *)
(** * Python primitives used by the script *)

Module Py.

Definition nl : string := String (ascii_of_nat 10) "".

(** ** Strings *)

(** [s.split(sep)] for a one-character separator: at least one field. *)
Fixpoint split_on (sep : ascii) (s : string) : list string :=
  match s with
  | EmptyString => [""]
  | String c s' =>
      if Ascii.eqb c sep then "" :: split_on sep s'
      else match split_on sep s' with
           | field :: fields => String c field :: fields
           | [] => [String c ""]
           end
  end.

(** [needle in hay]. *)
Fixpoint contains (needle hay : string) : bool :=
  String.prefix needle hay
  || match hay with
     | EmptyString => false
     | String _ hay' => contains needle hay'
     end.

(** A byte of the form [10xxxxxx] continues a code point. *)
Definition is_continuation (c : ascii) : bool :=
  let n := nat_of_ascii c in (128 <=? n)%nat && (n <? 192)%nat.

(** [len(s)]: the number of code points. *)
Fixpoint py_len (s : string) : nat :=
  match s with
  | EmptyString => 0%nat
  | String c s' => if is_continuation c then py_len s' else S (py_len s')
  end.

(** [s[:n]]: the first [n] code points. *)
Fixpoint slice_to (n : nat) (s : string) : string :=
  match s with
  | EmptyString => ""
  | String c s' =>
      if is_continuation c then String c (slice_to n s')
      else match n with
           | O => ""
           | S n' => String c (slice_to n' s')
           end
  end.

(** [s[n:]]: what follows the first [n] code points. *)
Fixpoint slice_from (n : nat) (s : string) : string :=
  match s with
  | EmptyString => ""
  | String c s' =>
      if is_continuation c then slice_from n s'
      else match n with
           | O => s
           | S n' => slice_from n' s'
           end
  end.

Fixpoint spaces (n : nat) : string :=
  match n with
  | O => ""
  | S n' => String " " (spaces n')
  end.

Fixpoint repeat_str (s : string) (n : nat) : string :=
  match n with
  | O => ""
  | S n' => s ++ repeat_str s n'
  end.

(** [s.ljust(width)]. *)
Definition ljust (width : nat) (s : string) : string :=
  s ++ spaces (width - py_len s).

(** [sep.join(parts)]. *)
Definition join (sep : string) (parts : list string) : string :=
  String.concat sep parts.

(** [s.replace(old, new)] for a non-empty [old]: occurrences are taken
    left to right and do not overlap.  [skip] counts the bytes of the
    occurrence found last that are still to be passed over. *)
Fixpoint replace_from (old new : string) (skip : nat) (s : string) : string :=
  match s with
  | EmptyString => ""
  | String c s' =>
      match skip with
      | S k => replace_from old new k s'
      | O =>
          if String.prefix old s
          then new ++ replace_from old new (String.length old - 1) s'
          else String c (replace_from old new 0 s')
      end
  end.

Definition replace (old new s : string) : string := replace_from old new 0 s.

(** ** [int(s)] on a string, base 10 *)

Definition is_space (c : ascii) : bool :=
  let n := nat_of_ascii c in
  ((9 <=? n)%nat && (n <=? 13)%nat) || ((28 <=? n)%nat && (n <=? 32)%nat).

Definition is_digit (c : ascii) : bool :=
  let n := nat_of_ascii c in (48 <=? n)%nat && (n <=? 57)%nat.

Definition digit_value (c : ascii) : Z := Z.of_nat (nat_of_ascii c) - 48.

Fixpoint lstrip (l : list ascii) : list ascii :=
  match l with
  | c :: l' => if is_space c then lstrip l' else l
  | [] => []
  end.

Definition strip (l : list ascii) : list ascii := rev (lstrip (rev (lstrip l))).

(** Digits with single underscores between them; [after_digit] tells
    whether the character read last was a digit. *)
Fixpoint int_digits (acc : Z) (after_digit : bool) (l : list ascii) : option Z :=
  match l with
  | [] => if after_digit then Some acc else None
  | c :: l' =>
      if is_digit c then int_digits (10 * acc + digit_value c) true l'
      else if Ascii.eqb c "_" then
             if after_digit then int_digits acc false l' else None
      else None
  end.

(** [None] stands for [ValueError].  Digits and blanks beyond ASCII are
    not read as such. *)
Definition int (s : string) : option Z :=
  match strip (list_ascii_of_string s) with
  | "+"%char :: l => int_digits 0 false l
  | "-"%char :: l => option_map Z.opp (int_digits 0 false l)
  | l => int_digits 0 false l
  end.

(** ** [str(n)] for a natural number and zero padding *)

Definition str_nat (n : nat) : string := NilZero.string_of_uint (Nat.to_uint n).

(** [str(n).rjust(width, '0')]. *)
Definition zero_pad (width : nat) (n : nat) : string :=
  let s := str_nat n in repeat_str "0" (width - String.length s) ++ s.

(** ** Lists *)

(** [sorted(l, key=key)]: stable, and it compares keys with [<] only. *)
Section Sorting.
Context {A K : Type} (ltb : K -> K -> bool) (key : A -> K).

Fixpoint insert_sorted (x : A) (l : list A) : list A :=
  match l with
  | [] => [x]
  | y :: l' =>
      if ltb (key y) (key x) then y :: insert_sorted x l' else x :: l
  end.

Fixpoint sorted (l : list A) : list A :=
  match l with
  | [] => []
  | x :: l' => insert_sorted x (sorted l')
  end.
End Sorting.

Definition mem (x : string) (l : list string) : bool := existsb (String.eqb x) l.

(** [Series.unique()]: the distinct values in order of first appearance. *)
Fixpoint unique_from (seen : list string) (l : list string) : list string :=
  match l with
  | [] => []
  | x :: l' =>
      if mem x seen then unique_from seen l' else x :: unique_from (x :: seen) l'
  end.

Definition unique (l : list string) : list string := unique_from [] l.

Fixpoint list_max (l : list nat) : nat :=
  match l with
  | [] => 0%nat
  | n :: l' => Nat.max n (list_max l')
  end.

(** ** Number formatting

    [format(x, '.Nf')] prints the decimal that is nearest to the value,
    ties to the even digit, and the sign of the value itself. *)

Definition Qlt_bool (x y : Q) : bool := negb (Qle_bool y x).

Definition round_half_even (q : Q) : Z :=
  let f := Qfloor q in
  match Qcompare (q - inject_Z f)%Q (1 # 2)%Q with
  | Lt => f
  | Gt => f + 1
  | Eq => if Z.even f then f else f + 1
  end.

Definition format_fixed (decimals : nat) (plus : bool) (q : Q) : string :=
  let unit := Z.pow 10 (Z.of_nat decimals) in
  let m := round_half_even (Qabs q * inject_Z unit)%Q in
  let sign := if Qlt_bool q 0 then "-" else if plus then "+" else "" in
  let whole := str_nat (Z.to_nat (m / unit)) in
  match decimals with
  | O => sign ++ whole
  | _ => sign ++ whole ++ "." ++ zero_pad decimals (Z.to_nat (m mod unit))
  end.

(** ['{:.2f}'], ['{:+.2f}'] and ['{:.1%}']. *)
Definition format_2f (q : Q) : string := format_fixed 2 false q.
Definition format_plus_2f (q : Q) : string := format_fixed 2 true q.
Definition format_pct1 (q : Q) : string := format_fixed 1 false (q * 100)%Q ++ "%".

End Py.

(* ================================================================== *)
(** * Data model *)

Record date := mk_date { year : Z; month : Z; day : Z }.

Record Timestamp := mk_ts { ts_date : date; hour : Z; minute : Z }.

(** One row of the loaded table, under the four configured column names
    [DATE_COLUMN], [SHIFT_COLUMN], [EMPLOYEE_COLUMN], [IDLE_TIME_COLUMN].
    [Driver] is [None] for a blank cell (NaN in the frame). *)
Record ActivityRecord := mk_record {
  Start_Time : Timestamp;
  Shift_Code : string;
  Driver : option string;
  Idle_Time : Q
}.

(** A row of [activity_on_target_day] once the columns ['Cleaned Shift']
    and ['Reporting Shift'] are there. *)
Record Activity := mk_activity {
  record : ActivityRecord;
  Cleaned_Shift : string;
  Reporting_Shift : string
}.

(** A row of [shift_summary]. *)
Record SummaryRow := mk_summary {
  Status : string;
  Driver_name : string;
  Avg_Idle_Time : Q;
  Move_Count : nat;
  Pct_of_Moves : Q;
  Idle_Impact : Q
}.

Definition date_eqb (a b : date) : bool :=
  (year a =? year b) && (month a =? month b) && (day a =? day b).

(** ** Calendar: what [strftime] needs *)

(** Days since 1970-01-01 in the proleptic Gregorian calendar. *)
Definition days_from_civil (d : date) : Z :=
  let y := if month d <=? 2 then year d - 1 else year d in
  let era := y / 400 in
  let yoe := y - era * 400 in
  let mp := if month d <=? 2 then month d + 9 else month d - 3 in
  let doy := (153 * mp + 2) / 5 + day d - 1 in
  let doe := yoe * 365 + yoe / 4 - yoe / 100 + doy in
  era * 146097 + doe - 719468.

Definition weekday_names : list string :=
  ["Sunday"; "Monday"; "Tuesday"; "Wednesday"; "Thursday"; "Friday"; "Saturday"].

Definition month_names : list string :=
  ["January"; "February"; "March"; "April"; "May"; "June"; "July"; "August";
   "September"; "October"; "November"; "December"].

(** [strftime('%A, %B %d')]. *)
Definition strftime_A_B_d (d : date) : string :=
  nth (Z.to_nat ((days_from_civil d + 4) mod 7)) weekday_names ""
  ++ ", " ++ nth (Z.to_nat (month d - 1)) month_names ""
  ++ " " ++ Py.zero_pad 2 (Z.to_nat (day d)).

(** [strftime('%H:%M')]. *)
Definition strftime_H_M (t : Timestamp) : string :=
  Py.zero_pad 2 (Z.to_nat (hour t)) ++ ":" ++ Py.zero_pad 2 (Z.to_nat (minute t)).

(* ================================================================== *)
(** * Effects: traces and exceptions *)

Inductive event :=
| Print (line : string)
| Post (url : string) (text : string)
| Sleep (seconds : nat).

Inductive exn :=
| TypeError (msg : string)
| ValueError (msg : string)
| OSError (msg : string).

(** [str(e)]. *)
Definition str_exn (e : exn) : string :=
  match e with
  | TypeError msg | ValueError msg | OSError msg => msg
  end.

Definition io (A : Type) : Type := list event * (exn + A).

Definition ret {A : Type} (a : A) : io A := ([], inr a).

Definition raise {A : Type} (e : exn) : io A := ([], inl e).

Definition bind {A B : Type} (m : io A) (k : A -> io B) : io B :=
  match m with
  | (t, inl e) => (t, inl e)
  | (t, inr a) => let (t', r) := k a in ((t ++ t')%list, r)
  end.

(** [try: m except Exception as e: handler e]. *)
Definition try_except {A : Type} (m : io A) (handler : exn -> io A) : io A :=
  match m with
  | (t, inl e) => let (t', r) := handler e in ((t ++ t')%list, r)
  | (t, inr a) => (t, inr a)
  end.

Definition emit (ev : event) : io unit := ([ev], inr tt).

Definition print (line : string) : io unit := emit (Print line).

Definition lift {A : Type} (r : exn + A) : io A := ([], r).

Definition trace {A : Type} (m : io A) : list event := fst m.

Definition outcome {A : Type} (m : io A) : exn + A := snd m.

Declare Scope io_scope.
Delimit Scope io_scope with io.
Notation "x <- m ;; k" := (bind m (fun x => k))
  (at level 61, m at next level, right associativity) : io_scope.
Notation "m ;; k" := (bind m (fun _ => k))
  (at level 61, right associativity) : io_scope.

(* ================================================================== *)
(** * The world around the script *)

(** What [requests.post] comes back with: a response, or a
    [requests.exceptions.RequestException]. *)
Inductive response :=
| Response (status_code : nat) (text : string)
| RequestException (msg : string).

Class Runtime := {
  (** [os.environ.get("WEBHOOK_URL")] *)
  SLACK_WEBHOOK_URL : option string;
  (** [pd.read_csv] followed by [pd.to_datetime] on the date column *)
  read_csv : string -> exn + list ActivityRecord;
  (** [pd.to_datetime(target_day_str)], up to the calendar day *)
  to_datetime : string -> exn + date;
  (** [pd.to_numeric] on one cell; [None] when it raises *)
  to_numeric : string -> option Q;
  (** [requests.post(url, json={"text": message}, timeout=30)] *)
  requests_post : string -> string -> response
}.

(* ================================================================== *)
(** * The script *)

(** ** Configuration *)

Definition LATE_SHIFT_START_HOUR : Z := 20.

Definition BENCHMARK_IDLE_TIME : Q := 68 # 100.

Definition PLACEHOLDER_URL : string := "YOUR_NEW_SLACK_APP_WEBHOOK_URL_HERE".

(** ** Helper functions for formatting *)

Definition get_impact_emoji (idle_impact : Q) : string :=
  if Qle_bool 20 idle_impact then "🔴"
  else if Qle_bool 10 idle_impact then "🟠"
  else if Qle_bool 0 idle_impact then "🟡"
  else "🟢".

Definition get_site_average_emoji (site_average : Q) : string :=
  if Py.Qlt_bool (135 # 100) site_average then "🔴"
  else if Py.Qlt_bool 1 site_average then "🟠"
  else if Qle_bool (68 # 100) site_average then "🟡"
  else "🟢".

(** The same two functions on binary64 floats, the number type the
    script runs on. *)
Module Binary64.

Definition get_impact_emoji (idle_impact : float) : string :=
  if (20 <=? idle_impact)%float then "🔴"
  else if (10 <=? idle_impact)%float then "🟠"
  else if (0 <=? idle_impact)%float then "🟡"
  else "🟢".

Definition get_site_average_emoji (site_average : float) : string :=
  if (1.35 <? site_average)%float then "🔴"
  else if (1.00 <? site_average)%float then "🟠"
  else if (0.68 <=? site_average)%float then "🟡"
  else "🟢".

End Binary64.

(** The legend the report prints ([idle_impact_key]), which is also what
    the comments of the two functions above say: symbol and status. *)
Definition status_legend : list (string * string) :=
  [("🟢", "Great"); ("🟡", "Fine"); ("🟠", "Bad"); ("🔴", "Very Bad")].

Fixpoint status_of_symbol_in (legend : list (string * string)) (symbol : string)
  : option string :=
  match legend with
  | [] => None
  | (sym, status) :: legend' =>
      if String.eqb sym symbol then Some status else status_of_symbol_in legend' symbol
  end.

Definition status_of_symbol : string -> option string :=
  status_of_symbol_in status_legend.

Definition headers : list string :=
  ["Status"; "Driver"; "Avg Idle Time"; "% of Moves"; "Idle Impact"].

(** The cells of one row of [df_display]. *)
Definition display_row (r : SummaryRow) : list string :=
  [ Status r ++ " ";
    Driver_name r;
    Py.format_2f (Avg_Idle_Time r);
    Py.format_pct1 (Pct_of_Moves r);
    Py.format_plus_2f (Idle_Impact r) ].

Definition pad_cells (col_widths : list nat) (cells : list string) : list string :=
  map (fun cw => Py.ljust (snd cw) (fst cw)) (combine cells col_widths).

Definition format_for_slack (df : list SummaryRow) : string :=
  let df_display := map display_row df in
  let col_widths :=
    map (fun ic =>
           Nat.max
             (Py.list_max (map (fun cells => Py.py_len (nth (fst ic) cells "")) df_display))
             (Py.py_len (snd ic)))
        (combine (seq 0 (length headers)) headers) in
  let separator :=
    "+-" ++ Py.join "-+-" (map (Py.repeat_str "-") col_widths) ++ "-+" in
  let header_line := "| " ++ Py.join " | " (pad_cells col_widths headers) ++ " |" in
  let row_lines :=
    map (fun cells => "| " ++ Py.join " | " (pad_cells col_widths cells) ++ " |")
        df_display in
  let table_lines :=
    List.app [separator; header_line; separator] (List.app row_lines [separator]) in
  Py.join Py.nl table_lines.

Definition format_summary_box (summary_parts : list string) : string :=
  let max_width := Py.list_max (map Py.py_len summary_parts) in
  let separator := "+-" ++ Py.repeat_str "-" max_width ++ "-+" in
  let boxed_lines :=
    List.app
      (separator :: map (fun line => "| " ++ Py.ljust max_width line ++ " |") summary_parts)
      [separator] in
  Py.join Py.nl boxed_lines.

(** ** Shift classification *)

(** [.str.split('-').str[-1]] *)
Definition clean_shift (shift_code : string) : string :=
  last (Py.split_on "-" shift_code) "".

(** Step 3: the column ['Cleaned Shift']. *)
Definition clean_shift_codes (df : list ActivityRecord) : list (ActivityRecord * string) :=
  map (fun r => (r, clean_shift (Shift_Code r))) df.

(** Step 4: the rows whose timestamp falls on the target day. *)
Definition on_target_day (target_date : date) (df : list (ActivityRecord * string))
  : list (ActivityRecord * string) :=
  filter (fun rc => date_eqb (ts_date (Start_Time (fst rc))) target_date) df.

(** [pd.to_numeric] on a column: it raises as soon as one cell does. *)
Fixpoint to_numeric_column `{Runtime} (cells : list string) : option (list Q) :=
  match cells with
  | [] => Some []
  | c :: cells' =>
      match to_numeric c with
      | None => None
      | Some v => option_map (cons v) (to_numeric_column cells')
      end
  end.

(** The boolean column [overnight_condition]; [None] when building it
    raises. *)
Definition overnight_condition `{Runtime} (activity : list Activity) : option (list bool) :=
  let early := map (fun a => hour (Start_Time (record a)) <? 5) activity in
  option_map
    (fun numeric =>
       map (fun en => fst en && Qle_bool (inject_Z (LATE_SHIFT_START_HOUR * 100)) (snd en))
           (combine early numeric))
    (to_numeric_column (map Cleaned_Shift activity)).

(** [activity.loc[mask, 'Reporting Shift'] = activity['Cleaned Shift'] + ' (Overnight)'] *)
Definition set_overnight (mask : list bool) (activity : list Activity) : list Activity :=
  map (fun am =>
         let a := fst am in
         if (snd am : bool)
         then mk_activity (record a) (Cleaned_Shift a) (Cleaned_Shift a ++ " (Overnight)")
         else a)
      (combine activity mask).

(** Lines 145 to 153: the column starts as the cleaned code, then the
    overnight rule runs inside its own [try]. *)
Definition apply_overnight_logic `{Runtime} (matched : list (ActivityRecord * string))
  : io (list Activity) :=
  let activity := map (fun rc => mk_activity (fst rc) (snd rc) (snd rc)) matched in
  match overnight_condition activity with
  | Some mask => ret (set_overnight mask activity)
  | None =>
      bind (print "Could not apply overnight logic, continuing with standard shifts.")
           (fun _ => ret activity)
  end.

Definition shift_sort_key (shift_name : string) : string :=
  if Py.contains "(Overnight)" shift_name then "0_" ++ shift_name
  else "1_" ++ shift_name.

Definition sorted_shifts_of (activity : list Activity) : list string :=
  let all_shifts_in_report := Py.unique (map Reporting_Shift activity) in
  Py.sorted String.ltb shift_sort_key all_shifts_in_report.

(** ** Aggregation *)

Definition Qsum (l : list Q) : Q := fold_right Qplus 0%Q l.

(** [Series.mean()] *)
Definition mean (l : list Q) : Q := (Qsum l / inject_Z (Z.of_nat (length l)))%Q.

Definition idle_times (activity : list Activity) : list Q :=
  map (fun a => Idle_Time (record a)) activity.

(** The row has a driver: its [Driver] cell is not NaN. *)
Definition has_driver (a : Activity) : bool :=
  match Driver (record a) with
  | Some _ => true
  | None => false
  end.

(** The row belongs to the group of driver [d]. *)
Definition driver_is (d : string) (a : Activity) : bool :=
  match Driver (record a) with
  | Some d' => String.eqb d' d
  | None => false
  end.

(** The [Driver] column without its NaN cells. *)
Fixpoint present_drivers (activity : list Activity) : list string :=
  match activity with
  | [] => []
  | a :: activity' =>
      match Driver (record a) with
      | Some d => d :: present_drivers activity'
      | None => present_drivers activity'
      end
  end.

(** [groupby(EMPLOYEE_COLUMN)]: one group per driver, in the order of the
    sorted driver names.  With the default [dropna=True] the rows whose
    key is NaN belong to no group. *)
Definition groupby_driver (activity : list Activity) : list (string * list Activity) :=
  map (fun d => (d, filter (driver_is d) activity))
      (Py.sorted String.ltb (fun d => d) (Py.unique (present_drivers activity))).

(** Lines 206 to 217.  [sort_values] is taken as stable; numpy's default
    sort fixes no order among equal keys. *)
Definition shift_summary_of (activity : list Activity) (total_daily_moves : nat)
  (shift_name : string) : list SummaryRow :=
  let shift_activity :=
    filter (fun a => String.eqb (Reporting_Shift a) shift_name) activity in
  let rows :=
    map (fun dg =>
           let Avg_Idle_Time := mean (idle_times (snd dg)) in
           let Move_Count := length (snd dg) in
           let pct := (inject_Z (Z.of_nat Move_Count) / inject_Z (Z.of_nat total_daily_moves))%Q in
           let impact :=
             ((Avg_Idle_Time - BENCHMARK_IDLE_TIME) * inject_Z (Z.of_nat Move_Count))%Q in
           mk_summary (get_impact_emoji impact) (fst dg) Avg_Idle_Time Move_Count pct impact)
        (groupby_driver shift_activity) in
  Py.sorted Py.Qlt_bool Idle_Impact rows.

(** [DataFrame.nlargest(n, IDLE_TIME_COLUMN)]: largest first, earlier rows
    first among equals. *)
Definition nlargest (n : nat) (activity : list Activity) : list Activity :=
  firstn n (Py.sorted (fun x y => Py.Qlt_bool y x) (fun a => Idle_Time (record a)) activity).

(** ** Report text *)

(** [str(x)] for a cell of a text column: the text, or "nan" for NaN. *)
Definition str_cell (cell : option string) : string :=
  match cell with
  | Some text => text
  | None => "nan"
  end.

Definition idle_impact_key : list string :=
  [ "Idle Impact Key:  (Impact = (Avg Idle - Benchmark) * Moves)";
    "  🟢 Great:    < 0";
    "  🟡 Fine:     0 to 10";
    "  🟠 Bad:      10 to 20";
    "  🔴 Very Bad:  20+" ].

Definition message_parts_of (target_date : date) (activity : list Activity) : list string :=
  let site_average := mean (idle_times activity) in
  let formatted_date := strftime_A_B_d target_date in
  let site_status_emoji := get_site_average_emoji site_average in
  let difference := (site_average - BENCHMARK_IDLE_TIME)%Q in
  let top_5 := nlargest 5 activity in
  let incidents :=
    map (fun a =>
           "  - " ++ str_cell (Driver (record a)) ++ ": "
           ++ Py.format_2f (Idle_Time (record a))
           ++ " at " ++ strftime_H_M (Start_Time (record a)))
        top_5 in
  let summary_parts :=
    List.app idle_impact_key
      (List.app [""; "Top 5 Highest Idle Time Incidents"] incidents) in
  let summary_block := format_summary_box summary_parts in
  [ "📊 *Daily Idling Time Report for " ++ formatted_date ++ "*";
    Py.nl ++ "*Site-wide Daily Average:* " ++ Py.format_2f site_average ++ " "
      ++ site_status_emoji;
    "*Benchmark:* " ++ Py.format_2f BENCHMARK_IDLE_TIME ++ " (Difference: "
      ++ Py.format_plus_2f difference ++ ")";
    "```" ++ summary_block ++ "```" ].

Definition NO_EMPLOYEE_DATA : string := "No employee data to analyze for this shift.".

(** The first entry of [shift_report_parts]. *)
Definition shift_header (shift_name : string) : string :=
  let display_shift := Py.replace " (Overnight)" "" shift_name in
  let formatted_shift := Py.slice_to 2 display_shift ++ ":" ++ Py.slice_from 2 display_shift in
  if Py.contains "(Overnight)" shift_name
  then Py.nl ++ "*" ++ formatted_shift ++ "* (from previous day)"
  else Py.nl ++ "*" ++ formatted_shift ++ "*".

(** The body of the loop of lines 205 to 234, from the summary table on. *)
Definition render_shift (shift_name : string) (shift_summary : list SummaryRow) : string :=
  let shift_report_parts :=
    match shift_summary with
    | [] => [shift_header shift_name; NO_EMPLOYEE_DATA]
    | _ => [shift_header shift_name; "```" ++ format_for_slack shift_summary ++ "```"]
    end in
  Py.join Py.nl shift_report_parts.

Definition shift_report (activity : list Activity) (total_daily_moves : nat)
  (shift_name : string) : string :=
  render_shift shift_name (shift_summary_of activity total_daily_moves shift_name).

(** ** Sending *)

Definition NONE_NOT_ITERABLE : exn := TypeError "argument of type 'NoneType' is not iterable".

Definition send_to_slack `{Runtime} (message : string) : io unit :=
  match SLACK_WEBHOOK_URL with
  | None => raise NONE_NOT_ITERABLE
  | Some url =>
      if Py.contains PLACEHOLDER_URL url
      then print (Py.nl ++ "WARNING: Slack webhook URL is not set. Skipping notification.")
      else
        bind (emit (Post url message))
             (fun _ =>
                match requests_post url message with
                | Response status_code text =>
                    if Nat.eqb status_code 200
                    then print "-> Done. Successfully sent report to Slack!"
                    else print ("-> Error sending to Slack. Status Code: "
                                  ++ Py.str_nat status_code ++ ", Response: " ++ text)
                | RequestException e => print ("-> Error connecting to Slack: " ++ e)
                end)
  end.

(** ** The split point and the one or two messages *)

(** The loop of lines 237 to 244, entered at index [i] with the split
    point found so far. *)
Fixpoint scan_split (i : Z) (split_index : Z) (shifts : list string) : Z :=
  match shifts with
  | [] => split_index
  | shift_name :: shifts' =>
      let cleaned_shift := hd "" (Py.split_on " " shift_name) in
      match Py.int cleaned_shift with
      | Some n => scan_split (i + 1) (if n <? 600 then i else split_index) shifts'
      | None => scan_split (i + 1) split_index shifts'
      end
  end.

Definition find_split_index (sorted_shifts : list string) : Z :=
  scan_split 0 (-1) sorted_shifts.

Definition CONTINUED : string := "📊 *Daily Idling Time Report (continued)*" ++ Py.nl.

Definition send_report `{Runtime} (message_parts : list string) (sorted_shifts : list string)
  (all_shift_reports : list string) : io unit :=
  let split_index := find_split_index sorted_shifts in
  if (split_index =? -1) || (split_index =? Z.of_nat (length all_shift_reports) - 1)
  then
    let final_message := Py.join Py.nl message_parts ++ Py.join "" all_shift_reports in
    send_to_slack final_message
  else
    let message_1_shifts := firstn (Z.to_nat (split_index + 1)) all_shift_reports in
    let final_message_1 := Py.join Py.nl message_parts ++ Py.join "" message_1_shifts in
    let message_2_shifts := skipn (Z.to_nat (split_index + 1)) all_shift_reports in
    let final_message_2 := CONTINUED ++ Py.join "" message_2_shifts in
    bind (send_to_slack final_message_1)
         (fun _ => bind (emit (Sleep 1)) (fun _ => send_to_slack final_message_2)).

(** ** The run *)

Definition no_data_message (target_day_str : string) : string :=
  "No data found for the date: " ++ target_day_str.

(** The [try] block of [analyze_day_performance]. *)
Definition analyze_day_body `{Runtime} (file_path target_day_str : string) : io unit :=
  (df <- lift (read_csv file_path) ;;
   let df := clean_shift_codes df in
   target_date <- lift (to_datetime target_day_str) ;;
   let activity_on_target_day := on_target_day target_date df in
   match activity_on_target_day with
   | [] =>
       let message := no_data_message target_day_str in
       print message ;; send_to_slack message
   | _ =>
       let total_daily_moves := length activity_on_target_day in
       activity <- apply_overnight_logic activity_on_target_day ;;
       let sorted_shifts := sorted_shifts_of activity in
       let message_parts := message_parts_of target_date activity in
       let all_shift_reports :=
         map (shift_report activity total_daily_moves) sorted_shifts in
       send_report message_parts sorted_shifts all_shift_reports
   end)%io.

Definition analyze_day_performance `{Runtime} (file_path target_day_str : string) : io unit :=
  try_except (analyze_day_body file_path target_day_str)
    (fun e =>
       (print ("An unexpected error occurred: " ++ str_exn e) ;;
        send_to_slack ("An unexpected error occurred in the daily report: " ++ str_exn e))%io).

(* ================================================================== *)
(** * Vocabulary of the properties *)

(** The webhook posts of a trace, in order. *)
Fixpoint posts (t : list event) : list (string * string) :=
  match t with
  | [] => []
  | Post url text :: t' => (url, text) :: posts t'
  | _ :: t' => posts t'
  end.

(** The overnight rule read record by record, as the specification words
    it: the suffix goes on when the hour is before 5 and the cleaned code
    is a number that is at least [LATE_SHIFT_START_HOUR * 100]; a code that
    is no number keeps the plain label. *)
Definition overnight_rule_spec `{Runtime} (r : ActivityRecord) : string :=
  let cleaned := clean_shift (Shift_Code r) in
  match to_numeric cleaned with
  | Some v =>
      if (hour (Start_Time r) <? 5) && Qle_bool (inject_Z (LATE_SHIFT_START_HOUR * 100)) v
      then cleaned ++ " (Overnight)"
      else cleaned
  | None => cleaned
  end.

Definition labelled_by_rule `{Runtime} (r : ActivityRecord) : Activity :=
  mk_activity r (clean_shift (Shift_Code r)) (overnight_rule_spec r).

Definition labelled_plain (r : ActivityRecord) : Activity :=
  mk_activity r (clean_shift (Shift_Code r)) (clean_shift (Shift_Code r)).

(** A label whose numeric prefix, read by [int], is below 600. *)
Definition starts_before_6 (shift_name : string) : bool :=
  match Py.int (hd "" (Py.split_on " " shift_name)) with
  | Some n => n <? 600
  | None => false
  end.

(** The split point as the specification words it, with the overnight
    labels counted among the shifts before 6 AM. *)
Definition counted_by_spec (shift_name : string) : bool :=
  starts_before_6 shift_name || Py.contains "(Overnight)" shift_name.

Fixpoint last_index_where {A : Type} (p : A -> bool) (l : list A) : option nat :=
  match l with
  | [] => None
  | x :: l' =>
      match last_index_where p l' with
      | Some k => Some (S k)
      | None => if p x then Some O else None
      end
  end.

Definition split_index_spec (sorted_shifts : list string) : Z :=
  match last_index_where counted_by_spec sorted_shifts with
  | Some k => Z.of_nat k
  | None => -1
  end.

Definition sum_nat (l : list nat) : nat := fold_right Nat.add O l.

(** [a] may stand before [b] in a list sorted by [key] under [ltb]. *)
Definition key_le {A K : Type} (ltb : K -> K -> bool) (key : A -> K) (a b : A) : Prop :=
  ltb (key b) (key a) = false.

(** The records behind one row of a shift's table. *)
Definition moves_of (activity : list Activity) (shift_name driver : string) : list Activity :=
  filter (fun a => String.eqb (Reporting_Shift a) shift_name && driver_is driver a)
         activity.

(** The value [pd.to_numeric] gives a cell it can read. *)
Definition numeric_or_zero `{Runtime} (cell : string) : Q :=
  match to_numeric cell with
  | Some v => v
  | None => 0%Q
  end.

(** The two conditions of the overnight rule, for one record. *)
Definition is_overnight `{Runtime} (r : ActivityRecord) : Prop :=
  hour (Start_Time r) < 5
  /\ exists v, to_numeric (clean_shift (Shift_Code r)) = Some v
               /\ (inject_Z (LATE_SHIFT_START_HOUR * 100) <= v)%Q.

Fixpoint has_char (c : ascii) (s : string) : bool :=
  match s with
  | EmptyString => false
  | String c' s' => Ascii.eqb c' c || has_char c s'
  end.

(** The records whose timestamp falls on the target day. *)
Definition matched_records (target_date : date) (df : list ActivityRecord)
  : list ActivityRecord :=
  filter (fun r => date_eqb (ts_date (Start_Time r)) target_date) df.

(** The overnight rule as a statement about every record of a run,
    whatever the other records of the run are. *)
Definition every_record_follows_rule `{Runtime} (records : list ActivityRecord) : Prop :=
  exists activity,
    outcome (apply_overnight_logic (clean_shift_codes records)) = inr activity
    /\ Forall (fun a => Reporting_Shift a = overnight_rule_spec (record a)) activity.


(** ** The rendered blocks, line by line *)

(** [boxed_lines] of [format_summary_box]. *)
Definition summary_box_lines (summary_parts : list string) : list string :=
  let max_width := Py.list_max (map Py.py_len summary_parts) in
  let separator := "+-" ++ Py.repeat_str "-" max_width ++ "-+" in
  List.app
    (separator :: map (fun line => "| " ++ Py.ljust max_width line ++ " |") summary_parts)
    [separator].

(** [col_widths] of [format_for_slack], in the order of the columns. *)
Definition table_col_widths (df : list SummaryRow) : list nat :=
  map (fun ic =>
         Nat.max
           (Py.list_max
              (map (fun cells => Py.py_len (nth (fst ic) cells "")) (map display_row df)))
           (Py.py_len (snd ic)))
      (combine (seq 0 (length headers)) headers).

(** [table_lines] of [format_for_slack]. *)
Definition table_lines (df : list SummaryRow) : list string :=
  let col_widths := table_col_widths df in
  let separator :=
    "+-" ++ Py.join "-+-" (map (Py.repeat_str "-") col_widths) ++ "-+" in
  let header_line := "| " ++ Py.join " | " (pad_cells col_widths headers) ++ " |" in
  let row_lines :=
    map (fun cells => "| " ++ Py.join " | " (pad_cells col_widths cells) ++ " |")
        (map display_row df) in
  List.app [separator; header_line; separator] (List.app row_lines [separator]).

(* ================================================================== *)
(** * A concrete world, for running the script on examples *)

Module Demo.

(** [pd.to_numeric] on the cells the examples use: a string of digits is
    its value, a word with other characters raises. *)
Definition digits_to_numeric (s : string) : option Q :=
  let l := list_ascii_of_string s in
  if forallb Py.is_digit l then option_map inject_Z (Py.int_digits 0 false l) else None.

(** [pd.to_datetime] on a [YYYY-MM-DD] string. *)
Definition iso_to_datetime (s : string) : exn + date :=
  match map Py.int (Py.split_on "-" s) with
  | [Some y; Some m; Some d] => inr (mk_date y m d)
  | _ => inl (ValueError ("Unknown datetime string format, unable to parse: " ++ s))
  end.

Definition the_day : date := mk_date 2024 3 5.

Definition at_ (h m : Z) : Timestamp := mk_ts the_day h m.

Definition hook : string := "https://hooks.slack.example/services/T0/B0/X0".

Definition world (url : option string) (table : list ActivityRecord) : Runtime :=
  {| SLACK_WEBHOOK_URL := url;
     read_csv := fun path =>
       if String.eqb path "data.csv" then inr table
       else inl (OSError "No such file or directory");
     to_datetime := iso_to_datetime;
     to_numeric := digits_to_numeric;
     requests_post := fun _ _ => Response 200 "ok" |}.

(** A late shift running past midnight next to a shift with a worded code. *)
Definition table_mixed : list ActivityRecord :=
  [ mk_record (at_ 2 10) "SITE-2200" (Some "Ana") (5 # 10);
    mk_record (at_ 9 30) "SITE-DAY" (Some "Ben") (15 # 10) ].


(** Numeric codes only: an overnight tail, a morning and an afternoon shift. *)
Definition table_numeric : list ActivityRecord :=
  [ mk_record (at_ 6 30) "SITE-0600" (Some "Ana") (5 # 10);
    mk_record (at_ 14 15) "SITE-1400" (Some "Ben") (15 # 10);
    mk_record (at_ 2 0) "SITE-2200" (Some "Ana") (2 # 1);
    mk_record (at_ 14 40) "SITE-1400" (Some "Ana") (3 # 10);
    mk_record (mk_ts (mk_date 2024 3 4) 23 0) "SITE-2200" (Some "Ben") (7 # 10) ].

(** An early shift, so that the report goes out in two messages. *)
Definition table_early : list ActivityRecord :=
  [ mk_record (at_ 4 30) "SITE-0400" (Some "Ana") (5 # 10);
    mk_record (at_ 1 0) "SITE-2200" (Some "Ben") (30 # 1);
    mk_record (at_ 14 15) "SITE-1400" (Some "Ben") (15 # 10) ].

(** Code 2200, behind a site prefix, at hour 2 and at hour 14. *)
Definition table_2200 : list ActivityRecord :=
  [ mk_record (at_ 2 0) "SITE-2200" (Some "Ana") (5 # 10);
    mk_record (at_ 14 0) "SITE-2200" (Some "Ben") (15 # 10) ].

(** The placeholder of the script inside a URL. *)
Definition placeholder_hook : string := "https://YOUR_NEW_SLACK_APP_WEBHOOK_URL_HERE".

(** Two afternoon records, one with a blank driver cell, and a night shift
    whose only record has a blank driver cell. *)
Definition table_blank_driver : list ActivityRecord :=
  [ mk_record (at_ 14 15) "SITE-1400" (Some "Ben") (15 # 10);
    mk_record (at_ 14 40) "SITE-1400" None (3 # 10);
    mk_record (at_ 22 5) "SITE-2200" None (9 # 10) ].

Definition blank_driver_activity : list Activity :=
  [ mk_activity (mk_record (at_ 14 15) "SITE-1400" (Some "Ben") (15 # 10)) "1400" "1400";
    mk_activity (mk_record (at_ 14 40) "SITE-1400" None (3 # 10)) "1400" "1400";
    mk_activity (mk_record (at_ 22 5) "SITE-2200" None (9 # 10)) "2200" "2200" ].

Definition numeric_activity : list Activity :=
  [ mk_activity (mk_record (at_ 6 30) "SITE-0600" (Some "Ana") (5 # 10)) "0600" "0600";
    mk_activity (mk_record (at_ 14 15) "SITE-1400" (Some "Ben") (15 # 10)) "1400" "1400";
    mk_activity (mk_record (at_ 2 0) "SITE-2200" (Some "Ana") (2 # 1)) "2200" "2200 (Overnight)";
    mk_activity (mk_record (at_ 14 40) "SITE-1400" (Some "Ana") (3 # 10)) "1400" "1400" ].

End Demo.

(* ================================================================== *)
(** * Facts about the Python primitives *)

Section SortingFacts.
Context {A K : Type} (ltb : K -> K -> bool) (key : A -> K).

Hypothesis ltb_asym : forall x y, ltb x y = true -> ltb y x = false.
Hypothesis le_trans :
  forall x y z, ltb y x = false -> ltb z y = false -> ltb z x = false.

Lemma insert_sorted_perm (x : A) (l : list A) :
  Permutation (Py.insert_sorted ltb key x l) (x :: l).
Proof.
  induction l as [|y l IH]; simpl.
  - apply Permutation_refl.
  - destruct (ltb (key y) (key x)).
    + eapply Permutation_trans; [apply perm_skip, IH | apply perm_swap].
    + apply Permutation_refl.
Qed.

Lemma sorted_perm (l : list A) : Permutation (Py.sorted ltb key l) l.
Proof.
  induction l as [|x l IH]; simpl.
  - constructor.
  - eapply Permutation_trans; [apply insert_sorted_perm | now apply perm_skip].
Qed.

Lemma insert_sorted_strongly (x : A) (l : list A) :
  StronglySorted (key_le ltb key) l -> StronglySorted (key_le ltb key) (Py.insert_sorted ltb key x l).
Proof.
  induction 1 as [|y l Hsorted IH Hall]; simpl.
  - repeat constructor.
  - destruct (ltb (key y) (key x)) eqn:Hyx.
    + constructor; [exact IH|].
      apply Forall_forall. intros z Hz.
      apply (Permutation_in _ (insert_sorted_perm x l)) in Hz.
      destruct Hz as [<-|Hz].
      * unfold key_le. now apply ltb_asym.
      * rewrite Forall_forall in Hall. now apply Hall.
    + constructor; [now constructor|].
      constructor; [exact Hyx|].
      apply Forall_forall. intros z Hz.
      rewrite Forall_forall in Hall.
      unfold key_le. apply le_trans with (y := key y); [exact Hyx | now apply Hall].
Qed.

Lemma sorted_strongly (l : list A) : StronglySorted (key_le ltb key) (Py.sorted ltb key l).
Proof.
  induction l as [|x l IH]; simpl.
  - constructor.
  - now apply insert_sorted_strongly.
Qed.

End SortingFacts.

(** ** The order on strings *)


Lemma string_leb_trans (a b c : string) :
  String.leb a b = true -> String.leb b c = true -> String.leb a c = true.
Proof.
  unfold String.leb.
  revert b c. induction a as [|x a IH]; intros [|y b] [|z c]; simpl; try congruence.
  unfold Ascii.compare.
  destruct (N.compare_spec (N_of_ascii x) (N_of_ascii y)) as [Hxy|Hxy|Hxy];
    destruct (N.compare_spec (N_of_ascii y) (N_of_ascii z)) as [Hyz|Hyz|Hyz];
    try congruence.
  - rewrite Hxy, Hyz, N.compare_refl. apply IH.
  - rewrite Hxy. apply N.compare_lt_iff in Hyz. now rewrite Hyz.
  - rewrite <- Hyz. apply N.compare_lt_iff in Hxy. now rewrite Hxy.
  - assert (H : (N_of_ascii x < N_of_ascii z)%N) by lia.
    apply N.compare_lt_iff in H. now rewrite H.
Qed.

Lemma string_ltb_false_leb (a b : string) :
  String.ltb b a = false <-> String.leb a b = true.
Proof.
  unfold String.ltb, String.leb. rewrite (String.compare_antisym b a).
  destruct (String.compare a b); simpl; split; congruence.
Qed.

Lemma string_ltb_asym (a b : string) : String.ltb a b = true -> String.ltb b a = false.
Proof.
  unfold String.ltb. rewrite (String.compare_antisym b a).
  destruct (String.compare a b); simpl; congruence.
Qed.

Lemma string_le_trans (x y z : string) :
  String.ltb y x = false -> String.ltb z y = false -> String.ltb z x = false.
Proof.
  rewrite !string_ltb_false_leb. intros. now apply string_leb_trans with y.
Qed.

(** ** The order on rationals *)

Lemma Qlt_bool_false (x y : Q) : Py.Qlt_bool y x = false <-> (x <= y)%Q.
Proof.
  unfold Py.Qlt_bool. rewrite negb_false_iff. apply Qle_bool_iff.
Qed.

Lemma Qlt_bool_true (x y : Q) : Py.Qlt_bool x y = true <-> (x < y)%Q.
Proof.
  unfold Py.Qlt_bool. rewrite negb_true_iff. split.
  - intros H. apply Qnot_le_lt. intros Hle. apply Qle_bool_iff in Hle. congruence.
  - intros H. destruct (Qle_bool y x) eqn:E; [|reflexivity].
    apply Qle_bool_iff in E. exfalso. now apply (Qlt_not_le x y).
Qed.

Lemma Qlt_bool_asym (x y : Q) : Py.Qlt_bool x y = true -> Py.Qlt_bool y x = false.
Proof.
  rewrite Qlt_bool_true, Qlt_bool_false. apply Qlt_le_weak.
Qed.


(** ** [unique] *)

Lemma mem_In (x : string) (l : list string) : Py.mem x l = true <-> In x l.
Proof.
  unfold Py.mem. rewrite existsb_exists. split.
  - intros [y [Hy E]]. apply String.eqb_eq in E. now subst.
  - intros H. exists x. split; [exact H | apply String.eqb_refl].
Qed.

Lemma unique_from_In (x : string) (l seen : list string) :
  In x (Py.unique_from seen l) <-> In x l /\ ~ In x seen.
Proof.
  revert seen. induction l as [|y l IH]; intros seen; simpl.
  - tauto.
  - destruct (Py.mem y seen) eqn:E.
    + apply mem_In in E. rewrite IH. split.
      * tauto.
      * intros [[->|H] Hn]; [contradiction | tauto].
    + assert (Hy : ~ In y seen) by (rewrite <- mem_In; congruence).
      simpl. rewrite IH. simpl. split.
      * intros [->|[H Hn]]; [tauto|]. split; [tauto|]. intros Hs. apply Hn. now right.
      * intros [[->|H] Hn]; [now left|].
        destruct (string_dec y x) as [->|Hne]; [now left|].
        right. split; [exact H|]. intros [Hs|Hs]; [congruence | contradiction].
Qed.

Lemma unique_from_NoDup (l seen : list string) : NoDup (Py.unique_from seen l).
Proof.
  revert seen. induction l as [|y l IH]; intros seen; simpl.
  - constructor.
  - destruct (Py.mem y seen); [apply IH|].
    constructor; [|apply IH].
    rewrite unique_from_In. simpl. tauto.
Qed.

Lemma unique_In (x : string) (l : list string) : In x (Py.unique l) <-> In x l.
Proof. unfold Py.unique. rewrite unique_from_In. simpl. tauto. Qed.

Lemma unique_NoDup (l : list string) : NoDup (Py.unique l).
Proof. apply unique_from_NoDup. Qed.

(** ** Lists: sums, filters, positions *)

Lemma sum_nat_perm (l l' : list nat) : Permutation l l' -> sum_nat l = sum_nat l'.
Proof.
  induction 1; simpl; lia.
Qed.

Lemma sum_nat_map_add {A : Type} (g h : A -> nat) (l : list A) :
  sum_nat (map (fun x => (g x + h x)%nat) l) = (sum_nat (map g l) + sum_nat (map h l))%nat.
Proof.
  induction l as [|x l IH]; simpl; [reflexivity | rewrite IH; lia].
Qed.

Lemma sum_nat_indicator (ks : list string) (k : string) :
  NoDup ks -> In k ks ->
  sum_nat (map (fun k' => if String.eqb k k' then 1%nat else 0%nat) ks) = 1%nat.
Proof.
  induction 1 as [|k0 ks Hnotin Hnodup IH]; simpl; [tauto|].
  intros [->|Hin].
  - rewrite String.eqb_refl.
    assert (Hzero : sum_nat (map (fun k' => if String.eqb k k' then 1%nat else 0%nat) ks) = 0%nat).
    { clear IH Hnodup. induction ks as [|k1 ks IHks]; simpl; [reflexivity|].
      destruct (String.eqb_spec k k1) as [->|_].
      - exfalso. apply Hnotin. now left.
      - apply IHks. intros H. apply Hnotin. now right. }
    rewrite Hzero. reflexivity.
  - destruct (String.eqb_spec k k0) as [->|_]; [contradiction|].
    now rewrite IH.
Qed.

(** Splitting a list by a key: the groups of the distinct keys have, in
    total, as many elements as the list. *)
Lemma group_sizes_sum {A : Type} (f : A -> string) (ks : list string) (l : list A) :
  NoDup ks -> (forall a, In a l -> In (f a) ks) ->
  sum_nat (map (fun k => length (filter (fun a => String.eqb (f a) k) l)) ks) = length l.
Proof.
  intros Hnodup. induction l as [|a l IH]; intros Hcover.
  - simpl. clear Hnodup Hcover. induction ks as [|k ks IHks]; simpl; auto.
  - transitivity
      (sum_nat (map (fun k => ((if String.eqb (f a) k then 1 else 0)
                               + length (filter (fun a' => String.eqb (f a') k) l))%nat) ks)).
    + f_equal. apply map_ext. intros k. simpl.
      destruct (String.eqb (f a) k); reflexivity.
    + rewrite sum_nat_map_add, sum_nat_indicator, IH; simpl; auto.
      * intros a' Ha'. apply Hcover. now right.
      * apply Hcover. now left.
Qed.

Lemma filter_filter_and {A : Type} (p q : A -> bool) (l : list A) :
  filter q (filter p l) = filter (fun a => p a && q a) l.
Proof.
  induction l as [|a l IH]; simpl; [reflexivity|].
  destruct (p a); simpl; [destruct (q a)|]; now rewrite IH.
Qed.

Lemma strongly_sorted_impl {A : Type} (R R' : A -> A -> Prop) (l : list A) :
  (forall a b, R a b -> R' a b) -> StronglySorted R l -> StronglySorted R' l.
Proof.
  intros Himpl. induction 1 as [|a l Hs IH Hall]; constructor; [exact IH|].
  eapply Forall_impl; [|exact Hall]. auto.
Qed.


(** ** The sort key of the reporting shifts *)



Lemma sorted_shifts_perm (activity : list Activity) :
  Permutation (sorted_shifts_of activity) (Py.unique (map Reporting_Shift activity)).
Proof. apply sorted_perm. Qed.

Lemma sorted_shifts_NoDup (activity : list Activity) : NoDup (sorted_shifts_of activity).
Proof.
  eapply Permutation_NoDup; [apply Permutation_sym, sorted_shifts_perm | apply unique_NoDup].
Qed.

Lemma sorted_shifts_In (activity : list Activity) (shift_name : string) :
  In shift_name (sorted_shifts_of activity)
  <-> exists a, In a activity /\ Reporting_Shift a = shift_name.
Proof.
  split.
  - intros H. apply (Permutation_in _ (sorted_shifts_perm activity)) in H.
    apply unique_In, in_map_iff in H. destruct H as [a [E Ha]]. eauto.
  - intros [a [Ha E]].
    apply (Permutation_in _ (Permutation_sym (sorted_shifts_perm activity))).
    apply unique_In, in_map_iff. eauto.
Qed.

(** ** The per-driver table of a shift *)

Lemma present_drivers_In (activity : list Activity) (d : string) :
  In d (present_drivers activity)
  <-> exists a, In a activity /\ Driver (record a) = Some d.
Proof.
  induction activity as [|a activity IH]; simpl.
  - split; [tauto | intros [a [[] _]]].
  - destruct (Driver (record a)) as [d'|] eqn:E; simpl; rewrite IH; split.
    + intros [->|[a' [Ha' Hd]]]; [exists a; auto | exists a'; auto].
    + intros [a' [[<-|Ha'] Hd]]; [left; congruence | right; eauto].
    + intros [a' [Ha' Hd]]. exists a'. auto.
    + intros [a' [[<-|Ha'] Hd]]; [congruence | eauto].
Qed.

Lemma driver_is_true (d : string) (a : Activity) :
  driver_is d a = true <-> Driver (record a) = Some d.
Proof.
  unfold driver_is. destruct (Driver (record a)) as [d'|].
  - rewrite String.eqb_eq. split; congruence.
  - split; discriminate.
Qed.

(** The groups of the drivers have, in total, as many rows as there are
    rows with a driver. *)
Lemma driver_groups_sum (ks : list string) (l : list Activity) :
  NoDup ks ->
  (forall a d, In a l -> Driver (record a) = Some d -> In d ks) ->
  sum_nat (map (fun k => length (filter (driver_is k) l)) ks)
  = length (filter has_driver l).
Proof.
  intros Hnodup. induction l as [|a l IH]; intros Hcover.
  - simpl. clear Hnodup Hcover. induction ks as [|k ks IHks]; simpl; auto.
  - assert (Hrest : forall a' d, In a' l -> Driver (record a') = Some d -> In d ks)
      by (intros a' d Ha'; apply Hcover; now right).
    specialize (IH Hrest).
    destruct (Driver (record a)) as [d|] eqn:E.
    + transitivity
        (sum_nat (map (fun k => ((if String.eqb d k then 1 else 0)
                                 + length (filter (driver_is k) l))%nat) ks)).
      * f_equal. apply map_ext. intros k. simpl. unfold driver_is at 1. rewrite E.
        destruct (String.eqb d k); reflexivity.
      * rewrite sum_nat_map_add, sum_nat_indicator, IH; auto.
        -- simpl. unfold has_driver at 2. rewrite E. reflexivity.
        -- apply (Hcover a d); [now left | exact E].
    + simpl. unfold has_driver at 1. rewrite E. rewrite <- IH.
      f_equal. apply map_ext. intros k. unfold driver_is at 1. rewrite E. reflexivity.
Qed.

Lemma filter_split_length {A : Type} (p : A -> bool) (l : list A) :
  (length (filter p l) + length (filter (fun a => negb (p a)) l) = length l)%nat.
Proof.
  induction l as [|a l IH]; simpl; [reflexivity|].
  destruct (p a); simpl; lia.
Qed.

Lemma groupby_driver_keys (activity : list Activity) :
  map fst (groupby_driver activity)
  = Py.sorted String.ltb (fun d => d) (Py.unique (present_drivers activity)).
Proof.
  unfold groupby_driver. rewrite map_map. simpl. apply map_id.
Qed.

Lemma groupby_driver_keys_perm (activity : list Activity) :
  Permutation (map fst (groupby_driver activity))
              (Py.unique (present_drivers activity)).
Proof. rewrite groupby_driver_keys. apply sorted_perm. Qed.

Lemma groupby_driver_group (activity : list Activity) (d : string) (g : list Activity) :
  In (d, g) (groupby_driver activity) ->
  g = filter (driver_is d) activity
  /\ exists a, In a activity /\ Driver (record a) = Some d.
Proof.
  unfold groupby_driver. intros H. apply in_map_iff in H.
  destruct H as [d' [E Hd']]. injection E as -> <-. split; [reflexivity|].
  apply (Permutation_in _ (sorted_perm _ _ _)) in Hd'.
  now apply unique_In, present_drivers_In in Hd'.
Qed.

(** The rows of [shift_summary] before [sort_values]. *)
Lemma shift_summary_perm (activity : list Activity) (total : nat) (shift_name : string) :
  Permutation
    (shift_summary_of activity total shift_name)
    (map (fun dg =>
            mk_summary
              (get_impact_emoji
                 ((mean (idle_times (snd dg)) - BENCHMARK_IDLE_TIME)
                  * inject_Z (Z.of_nat (length (snd dg))))%Q)
              (fst dg) (mean (idle_times (snd dg))) (length (snd dg))
              (inject_Z (Z.of_nat (length (snd dg))) / inject_Z (Z.of_nat total))%Q
              ((mean (idle_times (snd dg)) - BENCHMARK_IDLE_TIME)
               * inject_Z (Z.of_nat (length (snd dg))))%Q)
         (groupby_driver
            (filter (fun a => String.eqb (Reporting_Shift a) shift_name) activity))).
Proof. apply sorted_perm. Qed.

(** The move counts of a shift's table count the shift's rows that have
    a driver. *)
Lemma shift_summary_move_counts (activity : list Activity) (total : nat) (shift_name : string) :
  sum_nat (map Move_Count (shift_summary_of activity total shift_name))
  = length (filter (fun a => String.eqb (Reporting_Shift a) shift_name && has_driver a)
                   activity).
Proof.
  rewrite (sum_nat_perm _ _ (Permutation_map Move_Count (shift_summary_perm _ _ _))).
  rewrite map_map. simpl. unfold groupby_driver. rewrite map_map. simpl.
  rewrite <- filter_filter_and.
  apply driver_groups_sum.
  - eapply Permutation_NoDup; [apply Permutation_sym, sorted_perm | apply unique_NoDup].
  - intros a d Ha Hd.
    apply (Permutation_in _ (Permutation_sym (sorted_perm _ _ _))).
    apply unique_In, present_drivers_In. eauto.
Qed.

Lemma shift_summary_row (activity : list Activity) (total : nat) (shift_name : string)
  (r : SummaryRow) :
  In r (shift_summary_of activity total shift_name) ->
  let moves := moves_of activity shift_name (Driver_name r) in
  moves <> []
  /\ Move_Count r = length moves
  /\ Avg_Idle_Time r = mean (idle_times moves)
  /\ Pct_of_Moves r = (inject_Z (Z.of_nat (Move_Count r)) / inject_Z (Z.of_nat total))%Q
  /\ Idle_Impact r
     = ((Avg_Idle_Time r - BENCHMARK_IDLE_TIME) * inject_Z (Z.of_nat (Move_Count r)))%Q
  /\ Status r = get_impact_emoji (Idle_Impact r).
Proof.
  intros Hr. apply (Permutation_in _ (shift_summary_perm _ _ _)) in Hr.
  apply in_map_iff in Hr. destruct Hr as [[d g] [<- Hdg]].
  apply groupby_driver_group in Hdg. destruct Hdg as [-> [a [Ha Hd]]].
  simpl. unfold moves_of. rewrite filter_filter_and.
  repeat split.
  intros Hempty.
  assert (Hin : In a (filter (fun a0 => String.eqb (Reporting_Shift a0) shift_name
                                        && driver_is d a0) activity)).
  { apply filter_In in Ha. destruct Ha as [Ha Hs].
    apply filter_In. split; [exact Ha|].
    rewrite Hs. simpl. now apply driver_is_true. }
  rewrite Hempty in Hin. exact Hin.
Qed.


Lemma shift_summary_drivers (activity : list Activity) (total : nat) (shift_name : string) :
  Permutation
    (map Driver_name (shift_summary_of activity total shift_name))
    (Py.unique (present_drivers
                  (filter (fun a => String.eqb (Reporting_Shift a) shift_name) activity))).
Proof.
  eapply Permutation_trans;
    [apply (Permutation_map Driver_name (shift_summary_perm _ _ _))|].
  rewrite map_map. simpl.
  rewrite <- (map_map fst (fun d => d)), map_id.
  apply groupby_driver_keys_perm.
Qed.

(** A shift's table has a row exactly when one of its records has a
    driver. *)
Lemma shift_summary_rows_iff (activity : list Activity) (total : nat) (shift_name : string) :
  shift_summary_of activity total shift_name <> []
  <-> exists a, In a activity /\ Reporting_Shift a = shift_name /\ has_driver a = true.
Proof.
  split.
  - intros Hne.
    destruct (shift_summary_of activity total shift_name) as [|r rows] eqn:E;
      [congruence|].
    assert (Hr : In r (shift_summary_of activity total shift_name))
      by (rewrite E; now left).
    destruct (shift_summary_row _ _ _ _ Hr) as [Hmoves _].
    destruct (moves_of activity shift_name (Driver_name r)) as [|a moves] eqn:Em;
      [congruence|].
    assert (Ha : In a (moves_of activity shift_name (Driver_name r)))
      by (rewrite Em; now left).
    unfold moves_of in Ha. apply filter_In in Ha. destruct Ha as [Ha Hboth].
    apply andb_true_iff in Hboth. destruct Hboth as [Hs Hd].
    exists a. split; [exact Ha|]. split; [now apply String.eqb_eq|].
    apply driver_is_true in Hd. unfold has_driver. now rewrite Hd.
  - intros [a [Ha [Hs Hd]]] Hempty.
    unfold has_driver in Hd. destruct (Driver (record a)) as [d|] eqn:E; [|discriminate].
    assert (Hin : In d (map Driver_name (shift_summary_of activity total shift_name))).
    { apply (Permutation_in _ (Permutation_sym (shift_summary_drivers _ _ _))).
      apply unique_In, present_drivers_In. exists a. split; [|exact E].
      apply filter_In. split; [exact Ha|]. rewrite Hs. apply String.eqb_refl. }
    rewrite Hempty in Hin. exact Hin.
Qed.

(** ** Cleaning a shift code *)

Lemma split_on_nonempty (sep : ascii) (s : string) : Py.split_on sep s <> [].
Proof.
  destruct s as [|c s]; simpl; [discriminate|].
  destruct (Ascii.eqb c sep); [discriminate|].
  destruct (Py.split_on sep s); discriminate.
Qed.

Lemma split_on_no_sep (sep : ascii) (s : string) :
  has_char sep s = false -> Py.split_on sep s = [s].
Proof.
  induction s as [|c s IH]; simpl; [reflexivity|].
  destruct (Ascii.eqb c sep); simpl; [discriminate|].
  intros Hs. now rewrite (IH Hs).
Qed.

Lemma split_on_app (sep : ascii) (p s : string) :
  Py.split_on sep (p ++ String sep s) = (Py.split_on sep p ++ Py.split_on sep s)%list.
Proof.
  induction p as [|c p IH]; simpl.
  - now rewrite Ascii.eqb_refl.
  - rewrite IH. destruct (Ascii.eqb c sep); [reflexivity|].
    destruct (Py.split_on sep p) as [|g gs] eqn:E; [now apply split_on_nonempty in E|].
    reflexivity.
Qed.

Lemma last_app_nonempty {A : Type} (l1 l2 : list A) (d : A) :
  l2 <> [] -> last (l1 ++ l2) d = last l2 d.
Proof.
  intros Hne. induction l1 as [|x l1 IH]; simpl; [reflexivity|].
  rewrite IH. destruct (l1 ++ l2)%list eqn:E; [|reflexivity].
  apply app_eq_nil in E. tauto.
Qed.

Lemma clean_shift_plain (code : string) :
  has_char "-" code = false -> clean_shift code = code.
Proof.
  intros H. unfold clean_shift. now rewrite split_on_no_sep.
Qed.

Lemma clean_shift_after_dash (site code : string) :
  has_char "-" code = false -> clean_shift (site ++ "-" ++ code) = code.
Proof.
  intros H. unfold clean_shift. simpl. rewrite split_on_app.
  rewrite last_app_nonempty by apply split_on_nonempty.
  now rewrite split_on_no_sep.
Qed.

Lemma first_field_app (label rest : string) :
  hd "" (Py.split_on " " (label ++ String " " rest)) = hd "" (Py.split_on " " label).
Proof.
  rewrite split_on_app.
  destruct (Py.split_on " " label) eqn:E; [now apply split_on_nonempty in E | reflexivity].
Qed.

Lemma starts_before_6_suffix (cleaned : string) :
  starts_before_6 (cleaned ++ " (Overnight)") = starts_before_6 cleaned.
Proof.
  unfold starts_before_6.
  change (cleaned ++ " (Overnight)") with (cleaned ++ String " " "(Overnight)").
  now rewrite first_field_app.
Qed.

(** ** The overnight rule on a whole column *)

Section Classification.
Context `{Runtime}.

Lemma to_numeric_column_all (cells : list string) :
  Forall (fun c => to_numeric c <> None) cells ->
  to_numeric_column cells = Some (map numeric_or_zero cells).
Proof.
  induction 1 as [|c cells Hc _ IH]; simpl; [reflexivity|].
  unfold numeric_or_zero at 1.
  destruct (to_numeric c); [|congruence]. now rewrite IH.
Qed.


Lemma cleaned_column (records : list ActivityRecord) :
  map (fun rc : ActivityRecord * string => mk_activity (fst rc) (snd rc) (snd rc))
      (clean_shift_codes records)
  = map labelled_plain records.
Proof. unfold clean_shift_codes. now rewrite map_map. Qed.

Lemma set_overnight_by_rule (records : list ActivityRecord) :
  Forall (fun r => to_numeric (clean_shift (Shift_Code r)) <> None) records ->
  set_overnight
    (map (fun en : bool * Q =>
            fst en && Qle_bool (inject_Z (LATE_SHIFT_START_HOUR * 100)) (snd en))
         (combine (map (fun a => hour (Start_Time (record a)) <? 5)
                       (map labelled_plain records))
                  (map numeric_or_zero (map Cleaned_Shift (map labelled_plain records)))))
    (map labelled_plain records)
  = map labelled_by_rule records.
Proof.
  unfold set_overnight.
  induction 1 as [|r records Hr _ IH]; simpl; [reflexivity|].
  f_equal; [|exact IH].
  unfold labelled_by_rule, overnight_rule_spec, numeric_or_zero, labelled_plain. simpl.
  destruct (to_numeric (clean_shift (Shift_Code r))); [|congruence].
  match goal with |- context [if ?b then _ else _] => destruct b end; reflexivity.
Qed.

Lemma apply_overnight_all_numeric (records : list ActivityRecord) :
  Forall (fun r => to_numeric (clean_shift (Shift_Code r)) <> None) records ->
  apply_overnight_logic (clean_shift_codes records) = ret (map labelled_by_rule records).
Proof.
  intros Hall. unfold apply_overnight_logic, overnight_condition.
  rewrite cleaned_column, to_numeric_column_all.
  - simpl. now rewrite set_overnight_by_rule.
  - rewrite !Forall_map. simpl. exact Hall.
Qed.


Lemma apply_overnight_returns (matched : list (ActivityRecord * string)) :
  exists t activity,
    apply_overnight_logic matched = (t, inr activity) /\ length activity = length matched.
Proof.
  unfold apply_overnight_logic.
  destruct (overnight_condition _) as [mask|] eqn:E.
  - eexists _, _. split; [reflexivity|].
    unfold set_overnight. rewrite length_map, length_combine, length_map.
    unfold overnight_condition in E.
    destruct (to_numeric_column _) as [nums|] eqn:En; [|discriminate].
    injection E as <-. rewrite length_map, length_combine, !length_map.
    assert (Hn : length nums = length matched).
    { clear -En. revert nums En.
      induction matched as [|rc matched IH]; simpl; intros nums En.
      - now injection En as <-.
      - destruct (to_numeric (snd rc)); [|discriminate].
        destruct (to_numeric_column _) as [nums'|]; [|discriminate].
        injection En as <-. simpl. f_equal. now apply IH. }
    rewrite Hn. lia.
  - eexists _, _. split; [reflexivity|]. now rewrite length_map.
Qed.

Lemma overnight_rule_cases (r : ActivityRecord) :
  (is_overnight r
   /\ overnight_rule_spec r = clean_shift (Shift_Code r) ++ " (Overnight)")
  \/ (~ is_overnight r /\ overnight_rule_spec r = clean_shift (Shift_Code r)).
Proof.
  unfold is_overnight, overnight_rule_spec.
  destruct (to_numeric (clean_shift (Shift_Code r))) as [v|].
  - destruct (Z.ltb_spec (hour (Start_Time r)) 5) as [Hh|Hh]; simpl.
    + destruct (Qle_bool _ v) eqn:Hv.
      * left. split; [|reflexivity]. split; [exact Hh|].
        exists v. split; [reflexivity | now apply Qle_bool_iff].
      * right. split; [|reflexivity]. intros [_ [v' [Ev Hle]]].
        injection Ev as <-. apply Qle_bool_iff in Hle. congruence.
    + right. split; [|reflexivity]. intros [Hh' _]. lia.
  - right. split; [|reflexivity]. intros [_ [v [Ev _]]]. discriminate.
Qed.

End Classification.

Lemma on_target_day_clean (target_date : date) (df : list ActivityRecord) :
  on_target_day target_date (clean_shift_codes df)
  = clean_shift_codes (matched_records target_date df).
Proof.
  unfold on_target_day, clean_shift_codes, matched_records.
  induction df as [|r df IH]; simpl; [reflexivity|].
  destruct (date_eqb _ _); simpl; now rewrite IH.
Qed.

(** ** The split point *)

Lemma scan_split_last (shifts : list string) (i split_index : Z) :
  scan_split i split_index shifts
  = match last_index_where starts_before_6 shifts with
    | Some k => i + Z.of_nat k
    | None => split_index
    end.
Proof.
  revert i split_index. induction shifts as [|name shifts IH]; intros i s; simpl.
  - reflexivity.
  - unfold starts_before_6 at 2.
    destruct (Py.int (hd "" (Py.split_on " " name))) as [n|]; rewrite IH;
      destruct (last_index_where starts_before_6 shifts) as [k|];
      try destruct (n <? 600); lia.
Qed.

Lemma last_index_where_none {A : Type} (p : A -> bool) (l : list A) :
  last_index_where p l = None -> Forall (fun x => p x = false) l.
Proof.
  induction l as [|x l IH]; simpl; [constructor|].
  destruct (last_index_where p l); [discriminate|].
  destruct (p x) eqn:E; [discriminate|]. intros _. constructor; auto.
Qed.

Lemma last_index_where_some {A : Type} (p : A -> bool) (l : list A) (k : nat) :
  last_index_where p l = Some k ->
  exists x, nth_error l k = Some x /\ p x = true
            /\ Forall (fun y => p y = false) (skipn (S k) l).
Proof.
  revert k. induction l as [|x l IH]; simpl; intros k; [discriminate|].
  destruct (last_index_where p l) as [k'|] eqn:E.
  - intros Hk. injection Hk as <-. destruct (IH k' eq_refl) as [y [Hy [Hp Hrest]]].
    exists y. auto.
  - destruct (p x) eqn:Hp; [|discriminate].
    intros Hk. injection Hk as <-. exists x. repeat split; auto.
    simpl. now apply last_index_where_none.
Qed.

(* ================================================================== *)
(** * Shift classification *)

(** C1, as amended.  In a run where [pd.to_numeric] reads the cleaned
    code of every matched record, each record's reporting shift is its
    cleaned code, with " (Overnight)" appended exactly when the hour is
    below 5 and the code's number is at least [LATE_SHIFT_START_HOUR * 100]:
    the column the script computes is the record-by-record rule.  The
    cleaned code is what follows the last '-' of the shift code, and the
    whole code when it has no '-'. *)
Theorem C1_overnight_rule_when_all_codes_numeric `{Runtime}
  (records : list ActivityRecord) :
  Forall (fun r => to_numeric (clean_shift (Shift_Code r)) <> None) records ->
  apply_overnight_logic (clean_shift_codes records) = ret (map labelled_by_rule records)
  /\ Forall (fun r =>
               (is_overnight r
                /\ overnight_rule_spec r = clean_shift (Shift_Code r) ++ " (Overnight)")
               \/ (~ is_overnight r
                   /\ overnight_rule_spec r = clean_shift (Shift_Code r)))
            records
  /\ (forall site code,
         has_char "-" code = false -> clean_shift (site ++ "-" ++ code) = code)
  /\ (forall code, has_char "-" code = false -> clean_shift code = code).
Proof.
  intros Hall. split; [|split; [|split]].
  - now apply apply_overnight_all_numeric.
  - apply Forall_forall. intros r _. apply overnight_rule_cases.
  - exact clean_shift_after_dash.
  - exact clean_shift_plain.
Qed.

(** Code "2200" at hour 2 becomes "2200 (Overnight)", at hour 14 it stays
    "2200". *)
Lemma C1_witness_2200 :
  Forall (fun r => @to_numeric (Demo.world (Some Demo.hook) Demo.table_2200)
                     (clean_shift (Shift_Code r)) <> None)
         Demo.table_2200
  /\ map Reporting_Shift
         (map (@labelled_by_rule (Demo.world (Some Demo.hook) Demo.table_2200))
              Demo.table_2200)
     = ["2200 (Overnight)"; "2200"]
  /\ @apply_overnight_logic (Demo.world (Some Demo.hook) Demo.table_2200)
       (clean_shift_codes Demo.table_2200)
     = ret (map (@labelled_by_rule (Demo.world (Some Demo.hook) Demo.table_2200))
                Demo.table_2200).
Proof.
  assert (Hall : Forall (fun r => @to_numeric (Demo.world (Some Demo.hook) Demo.table_2200)
                                    (clean_shift (Shift_Code r)) <> None)
                        Demo.table_2200).
  { repeat constructor; vm_compute; discriminate. }
  split; [exact Hall|]. split; [reflexivity|].
  exact (proj1 (@C1_overnight_rule_when_all_codes_numeric
                  (Demo.world (Some Demo.hook) Demo.table_2200) Demo.table_2200 Hall)).
Defined.

(** The claim as stated fails as soon as another record of the run has a
    code that is no number: the record with code 2200 at 02:10 keeps the
    label "2200". *)
Lemma C1_counterexample_mixed_codes :
  ~ @every_record_follows_rule (Demo.world (Some Demo.hook) Demo.table_mixed)
      Demo.table_mixed.
Proof.
  intros [activity [Hrun Hrule]].
  vm_compute in Hrun. injection Hrun as <-.
  inversion Hrule as [|a l Ha _]. vm_compute in Ha. discriminate Ha.
Qed.

(* ================================================================== *)
(** * Sending *)

Lemma posts_app (t1 t2 : list event) : posts (t1 ++ t2) = (posts t1 ++ posts t2)%list.
Proof.
  induction t1 as [|ev t1 IH]; simpl; [reflexivity|].
  destruct ev; simpl; now rewrite IH.
Qed.

Section Sending.
Context `{Runtime}.

Lemma send_absent (message : string) :
  SLACK_WEBHOOK_URL = None -> send_to_slack message = raise NONE_NOT_ITERABLE.
Proof. unfold send_to_slack. now intros ->. Qed.

Lemma send_placeholder (url message : string) :
  SLACK_WEBHOOK_URL = Some url -> Py.contains PLACEHOLDER_URL url = true ->
  send_to_slack message
  = print (Py.nl ++ "WARNING: Slack webhook URL is not set. Skipping notification.").
Proof. unfold send_to_slack. now intros -> ->. Qed.

Lemma send_configured (url message : string) :
  SLACK_WEBHOOK_URL = Some url -> Py.contains PLACEHOLDER_URL url = false ->
  exists line, send_to_slack message = ([Post url message; Print line], inr tt).
Proof.
  unfold send_to_slack. intros -> ->. unfold bind, emit, print. simpl.
  destruct (requests_post url message) as [code text|msg]; simpl;
    [destruct (Nat.eqb code 200)|]; eexists; reflexivity.
Qed.

Lemma send_returns (url message : string) :
  SLACK_WEBHOOK_URL = Some url -> exists t, send_to_slack message = (t, inr tt).
Proof.
  intros Hurl. destruct (Py.contains PLACEHOLDER_URL url) eqn:E.
  - rewrite (send_placeholder url) by assumption. eexists. reflexivity.
  - destruct (send_configured url message Hurl E) as [line ->]. eexists. reflexivity.
Qed.

Lemma send_report_raises (message_parts shifts reports : list string) :
  SLACK_WEBHOOK_URL = None ->
  send_report message_parts shifts reports = raise NONE_NOT_ITERABLE.
Proof.
  intros Hurl. unfold send_report.
  destruct (_ || _); rewrite !send_absent by assumption; reflexivity.
Qed.

Lemma body_raises_without_webhook (file_path target_day_str : string) :
  SLACK_WEBHOOK_URL = None ->
  exists t e, analyze_day_body file_path target_day_str = (t, inl e).
Proof.
  intros Hurl. unfold analyze_day_body.
  destruct (read_csv file_path) as [e|df]; [eexists _, _; reflexivity|].
  cbn [lift bind]. 
  destruct (to_datetime target_day_str) as [e|target_date]; [eexists _, _; reflexivity|].
  cbn [lift bind app].
  destruct (on_target_day target_date (clean_shift_codes df)) as [|rc matched] eqn:E.
  - rewrite send_absent by assumption. eexists _, _. reflexivity.
  - destruct (apply_overnight_returns (rc :: matched)) as [t [activity [-> _]]].
    cbn [bind]. rewrite send_report_raises by assumption.
    eexists _, _. reflexivity.
Qed.

Lemma send_posts_once (url message : string) :
  SLACK_WEBHOOK_URL = Some url ->
  exists t,
    send_to_slack message = (t, inr tt)
    /\ posts t = if Py.contains PLACEHOLDER_URL url then [] else [(url, message)].
Proof.
  intros Hurl. destruct (Py.contains PLACEHOLDER_URL url) eqn:E.
  - rewrite (send_placeholder url) by assumption. eexists. split; reflexivity.
  - destruct (send_configured url message Hurl E) as [line ->].
    eexists. split; reflexivity.
Qed.

Lemma send_report_posts (url : string) (message_parts shifts reports : list string) :
  SLACK_WEBHOOK_URL = Some url ->
  exists t,
    send_report message_parts shifts reports = (t, inr tt)
    /\ (length (posts t) <= 2)%nat
    /\ Forall (fun p => fst p = url) (posts t).
Proof.
  intros Hurl. unfold send_report.
  destruct (_ || _).
  - destruct (send_posts_once url (Py.join Py.nl message_parts ++ Py.join "" reports) Hurl)
      as [t [-> Hp]].
    exists t. split; [reflexivity|]. rewrite Hp.
    destruct (Py.contains PLACEHOLDER_URL url); simpl; split; repeat constructor.
  - match goal with
    | |- context [bind (send_to_slack ?m1) (fun _ => bind _ (fun _ => send_to_slack ?m2))] =>
        destruct (send_posts_once url m1 Hurl) as [t1 [-> Hp1]];
        destruct (send_posts_once url m2 Hurl) as [t2 [-> Hp2]]
    end.
    eexists. split; [reflexivity|].
    rewrite posts_app. simpl. rewrite Hp1, Hp2.
    destruct (Py.contains PLACEHOLDER_URL url); simpl; split; repeat constructor.
Qed.

(** With a webhook URL in the environment no exception leaves the run. *)
Lemma run_returns_when_webhook_set (url file_path target_day_str : string) :
  SLACK_WEBHOOK_URL = Some url ->
  outcome (analyze_day_performance file_path target_day_str) = inr tt.
Proof.
  intros Hurl. unfold analyze_day_performance.
  destruct (analyze_day_body file_path target_day_str) as [t [e|[]]]; [|reflexivity].
  unfold try_except. cbn [bind print emit].
  destruct (send_returns url
              ("An unexpected error occurred in the daily report: " ++ str_exn e) Hurl)
    as [t' ->].
  reflexivity.
Qed.

End Sending.





(** C3, as amended.  The split point is the index of the last label whose
    numeric prefix read by [int] is below 600, and -1 when there is none;
    a label that [int] cannot read changes nothing.  The suffix
    " (Overnight)" does not enter the prefix, so an overnight label counts
    only when its own code is below 600, and "2200 (Overnight)" does not
    count.  With no split point, or the split point on the last fragment,
    one message is handed to [send_to_slack]; otherwise exactly two: the
    summary with the fragments up to the split point, then, after the
    pause, the continuation header with the rest.  With a webhook URL in
    the environment the sends return and each message is posted, unless
    the URL holds the placeholder: then nothing is posted. *)
Theorem C3_split_point_and_messages `{Runtime}
  (url : string) (message_parts sorted_shifts all_shift_reports : list string) :
  SLACK_WEBHOOK_URL = Some url ->
  length all_shift_reports = length sorted_shifts ->
  let split_index := find_split_index sorted_shifts in
  let summary := Py.join Py.nl message_parts in
  let run := send_report message_parts sorted_shifts all_shift_reports in
  let one_message := summary ++ Py.join "" all_shift_reports in
  let message_1 :=
    summary ++ Py.join "" (firstn (Z.to_nat (split_index + 1)) all_shift_reports) in
  let message_2 :=
    CONTINUED ++ Py.join "" (skipn (Z.to_nat (split_index + 1)) all_shift_reports) in
  let unsplit :=
    (split_index =? -1) || (split_index =? Z.of_nat (length sorted_shifts) - 1) in
  ((split_index = -1 /\ Forall (fun name => starts_before_6 name = false) sorted_shifts)
   \/ (exists k name,
          split_index = Z.of_nat k
          /\ nth_error sorted_shifts k = Some name
          /\ starts_before_6 name = true
          /\ Forall (fun later => starts_before_6 later = false)
                    (skipn (S k) sorted_shifts)))
  /\ (forall cleaned, starts_before_6 (cleaned ++ " (Overnight)") = starts_before_6 cleaned)
  /\ starts_before_6 "2200 (Overnight)" = false
  /\ run = (if unsplit then send_to_slack one_message
            else bind (send_to_slack message_1)
                      (fun _ => bind (emit (Sleep 1)) (fun _ => send_to_slack message_2)))
  /\ outcome run = inr tt
  /\ posts (trace run)
     = if Py.contains PLACEHOLDER_URL url then []
       else if unsplit then [(url, one_message)]
            else [(url, message_1); (url, message_2)].
Proof.
  intros Hurl Hlen split_index summary run one_message message_1 message_2 unsplit.
  assert (Hrun : run = (if unsplit then send_to_slack one_message
                        else bind (send_to_slack message_1)
                                  (fun _ => bind (emit (Sleep 1))
                                              (fun _ => send_to_slack message_2)))).
  { subst run unsplit. unfold send_report. fold split_index. rewrite Hlen. reflexivity. }
  split; [|split; [|split; [|split; [exact Hrun|]]]].
  - subst split_index. unfold find_split_index. rewrite scan_split_last.
    destruct (last_index_where starts_before_6 sorted_shifts) as [k|] eqn:E.
    + right. destruct (last_index_where_some _ _ _ E) as [name [Hk [Hp Hrest]]].
      exists k, name. repeat split; auto.
    + left. split; [reflexivity | now apply last_index_where_none].
  - apply starts_before_6_suffix.
  - reflexivity.
  - rewrite Hrun. destruct unsplit.
    + destruct (send_posts_once url one_message Hurl) as [t [-> Hp]].
      cbn [outcome trace fst snd]. rewrite Hp.
      destruct (Py.contains PLACEHOLDER_URL url); split; reflexivity.
    + destruct (send_posts_once url message_1 Hurl) as [t1 [-> Hp1]].
      destruct (send_posts_once url message_2 Hurl) as [t2 [-> Hp2]].
      cbn [bind emit outcome trace fst snd]. split; [reflexivity|].
      rewrite posts_app. simpl. rewrite Hp1, Hp2.
      destruct (Py.contains PLACEHOLDER_URL url); reflexivity.
Qed.

Lemma C3_witness_two_messages :
  @SLACK_WEBHOOK_URL (Demo.world (Some Demo.hook) Demo.table_early) = Some Demo.hook
  /\ length ["<overnight>"; "<early>"; "<afternoon>"]
     = length ["2200 (Overnight)"; "0400"; "1400"]
  /\ find_split_index ["2200 (Overnight)"; "0400"; "1400"] = 1
  /\ posts (trace (@send_report (Demo.world (Some Demo.hook) Demo.table_early)
                     ["<summary>"] ["2200 (Overnight)"; "0400"; "1400"]
                     ["<overnight>"; "<early>"; "<afternoon>"]))
     = [(Demo.hook, "<summary><overnight><early>");
        (Demo.hook, CONTINUED ++ "<afternoon>")].
Proof.
  split; [reflexivity|]. split; [reflexivity|]. split; [reflexivity|].
  exact (proj2 (proj2 (proj2 (proj2 (proj2
    (@C3_split_point_and_messages (Demo.world (Some Demo.hook) Demo.table_early)
       Demo.hook ["<summary>"] ["2200 (Overnight)"; "0400"; "1400"]
       ["<overnight>"; "<early>"; "<afternoon>"] eq_refl eq_refl)))))).
Defined.

(** The claim as stated counts "2200 (Overnight)" among the shifts before
    6 AM.  On the day with the shifts 2200 (Overnight), 0600 and 1400 that
    reading puts the split point at index 0 and asks for two messages; the
    script finds no split point and posts the whole report in one. *)
Lemma C3_counterexample_overnight_not_counted :
  sorted_shifts_of Demo.numeric_activity = ["2200 (Overnight)"; "0600"; "1400"]
  /\ split_index_spec (sorted_shifts_of Demo.numeric_activity) = 0
  /\ find_split_index (sorted_shifts_of Demo.numeric_activity) = -1
  /\ find_split_index (sorted_shifts_of Demo.numeric_activity)
     <> split_index_spec (sorted_shifts_of Demo.numeric_activity)
  /\ outcome (@apply_overnight_logic (Demo.world (Some Demo.hook) Demo.table_numeric)
                (on_target_day Demo.the_day (clean_shift_codes Demo.table_numeric)))
     = inr Demo.numeric_activity
  /\ length (posts (trace (@analyze_day_performance
                             (Demo.world (Some Demo.hook) Demo.table_numeric)
                             "data.csv" "2024-03-05")))
     = 1%nat.
Proof.
  repeat split; try (vm_compute; reflexivity).
  vm_compute. discriminate.
Qed.

(** C4, at the failing input: the environment has no [WEBHOOK_URL].
    [os.environ.get] then gives [None], the membership test of
    [send_to_slack] raises [TypeError] before the warning is reached, and
    the handler of [analyze_day_performance], which sends as well, raises
    again: every run ends in an uncaught exception and posts nothing. *)
Theorem C4_absent_webhook_crashes_the_run `{Runtime} (file_path target_day_str : string) :
  SLACK_WEBHOOK_URL = None ->
  (forall message, send_to_slack message = raise NONE_NOT_ITERABLE)
  /\ outcome (analyze_day_performance file_path target_day_str) = inl NONE_NOT_ITERABLE
  /\ posts (trace (analyze_day_performance file_path target_day_str)) = [].
Proof.
  intros Hurl. split; [intros message; now apply send_absent|].
  unfold analyze_day_performance.
  destruct (body_raises_without_webhook file_path target_day_str Hurl) as [t [e Hbody]].
  assert (Hquiet : posts t = []).
  { revert Hbody. unfold analyze_day_body.
    destruct (read_csv file_path) as [e0|df]; cbn [lift bind app].
    - intros E. now injection E as <- _.
    - destruct (to_datetime target_day_str) as [e0|target_date]; cbn [lift bind app].
      + intros E. now injection E as <- _.
      + destruct (on_target_day target_date (clean_shift_codes df)) as [|rc matched].
        * rewrite send_absent by assumption. intros E. now injection E as <- _.
        * unfold apply_overnight_logic.
          destruct (overnight_condition _); cbn [bind ret print emit app];
            rewrite send_report_raises by assumption;
            intros E; now injection E as <- _. }
  rewrite Hbody. unfold try_except. cbn [bind print emit].
  rewrite send_absent by assumption. cbn [raise outcome trace fst snd].
  split; [reflexivity|].
  rewrite posts_app, Hquiet. reflexivity.
Qed.

Lemma C4_witness_no_webhook :
  @SLACK_WEBHOOK_URL (Demo.world None Demo.table_numeric) = None
  /\ outcome (@analyze_day_performance (Demo.world None Demo.table_numeric)
                "data.csv" "2024-03-05")
     = inl NONE_NOT_ITERABLE.
Proof.
  split; [reflexivity|].
  exact (proj1 (proj2 (@C4_absent_webhook_crashes_the_run
                         (Demo.world None Demo.table_numeric)
                         "data.csv" "2024-03-05" eq_refl))).
Defined.

(** The other half of C4 holds: with the placeholder in the configured
    URL a send prints the warning, posts nothing and returns. *)
Lemma placeholder_webhook_skips_send `{Runtime} (url message : string) :
  SLACK_WEBHOOK_URL = Some url ->
  Py.contains PLACEHOLDER_URL url = true ->
  send_to_slack message
  = ([Print (Py.nl ++ "WARNING: Slack webhook URL is not set. Skipping notification.")],
     inr tt).
Proof.
  intros Hurl Hplace. now rewrite (send_placeholder url).
Qed.

(** C9, as amended.  When the table loads, the target day parses, no
    record of the table falls on that day and a webhook URL is in the
    environment, the run prints the "no data" line for that date, hands
    the same line to [send_to_slack] once and returns without error: the
    notice is the only post of the run, no report is built, and with the
    placeholder in the URL nothing is posted at all. *)
Theorem C9_no_data_short_circuit `{Runtime}
  (file_path target_day_str url : string) (df : list ActivityRecord) (target_date : date) :
  read_csv file_path = inr df ->
  to_datetime target_day_str = inr target_date ->
  Forall (fun r => date_eqb (ts_date (Start_Time r)) target_date = false) df ->
  SLACK_WEBHOOK_URL = Some url ->
  analyze_day_performance file_path target_day_str
  = bind (print (no_data_message target_day_str))
         (fun _ => send_to_slack (no_data_message target_day_str))
  /\ outcome (analyze_day_performance file_path target_day_str) = inr tt
  /\ posts (trace (analyze_day_performance file_path target_day_str))
     = if Py.contains PLACEHOLDER_URL url then []
       else [(url, "No data found for the date: " ++ target_day_str)].
Proof.
  intros Hread Hdate Hnone Hurl.
  assert (Hrun : analyze_day_performance file_path target_day_str
                 = bind (print (no_data_message target_day_str))
                        (fun _ => send_to_slack (no_data_message target_day_str))).
  { unfold analyze_day_performance, analyze_day_body.
    rewrite Hread, Hdate. cbn [lift bind app].
    rewrite on_target_day_clean.
    assert (Hempty : matched_records target_date df = []).
    { unfold matched_records. clear -Hnone.
      induction Hnone as [|r df Hr _ IH]; simpl; [reflexivity|]. now rewrite Hr. }
    rewrite Hempty. cbn [clean_shift_codes map].
    destruct (send_returns url (no_data_message target_day_str) Hurl) as [t ->].
    reflexivity. }
  rewrite Hrun. split; [reflexivity|].
  destruct (Py.contains PLACEHOLDER_URL url) eqn:E.
  - rewrite (send_placeholder url) by assumption. split; reflexivity.
  - destruct (send_configured url (no_data_message target_day_str) Hurl E) as [line ->].
    split; reflexivity.
Qed.

Lemma C9_witness_other_day :
  @read_csv (Demo.world (Some Demo.hook) Demo.table_numeric) "data.csv"
  = inr Demo.table_numeric
  /\ @to_datetime (Demo.world (Some Demo.hook) Demo.table_numeric) "2024-03-06"
     = inr (mk_date 2024 3 6)
  /\ Forall (fun r => date_eqb (ts_date (Start_Time r)) (mk_date 2024 3 6) = false)
            Demo.table_numeric
  /\ posts (trace (@analyze_day_performance (Demo.world (Some Demo.hook) Demo.table_numeric)
                     "data.csv" "2024-03-06"))
     = [(Demo.hook, "No data found for the date: 2024-03-06")].
Proof.
  assert (Hnone : Forall (fun r => date_eqb (ts_date (Start_Time r)) (mk_date 2024 3 6) = false)
                         Demo.table_numeric).
  { repeat constructor. }
  split; [reflexivity|]. split; [reflexivity|]. split; [exact Hnone|].
  exact (proj2 (proj2 (@C9_no_data_short_circuit
                         (Demo.world (Some Demo.hook) Demo.table_numeric)
                         "data.csv" "2024-03-06" Demo.hook Demo.table_numeric
                         (mk_date 2024 3 6) eq_refl eq_refl Hnone eq_refl))).
Defined.

(** The claim as stated has the notice sent in every run without data.
    With the placeholder URL the run on a day without records returns and
    posts nothing: the send is skipped with the warning. *)
Lemma C9_counterexample_placeholder_sends_no_notice :
  Forall (fun r => date_eqb (ts_date (Start_Time r)) (mk_date 2024 3 6) = false)
         Demo.table_numeric
  /\ @analyze_day_performance (Demo.world (Some Demo.placeholder_hook) Demo.table_numeric)
       "data.csv" "2024-03-06"
     = ([Print "No data found for the date: 2024-03-06";
         Print (Py.nl ++ "WARNING: Slack webhook URL is not set. Skipping notification.")],
        inr tt)
  /\ posts (trace (@analyze_day_performance
                     (Demo.world (Some Demo.placeholder_hook) Demo.table_numeric)
                     "data.csv" "2024-03-06"))
     = []
  /\ ~ In (Demo.placeholder_hook, no_data_message "2024-03-06")
         (posts (trace (@analyze_day_performance
                          (Demo.world (Some Demo.placeholder_hook) Demo.table_numeric)
                          "data.csv" "2024-03-06"))).
Proof.
  split; [repeat constructor|]. split; [vm_compute; reflexivity|].
  split; [vm_compute; reflexivity|].
  vm_compute. tauto.
Qed.

(* ================================================================== *)
(** * Status symbols *)

Lemma impact_symbol_in_legend (idle_impact : Q) :
  exists status, status_of_symbol (get_impact_emoji idle_impact) = Some status.
Proof.
  unfold get_impact_emoji.
  repeat match goal with |- context [if ?b then _ else _] => destruct b end;
    eexists; reflexivity.
Qed.

Lemma site_symbol_in_legend (site_average : Q) :
  exists status, status_of_symbol (get_site_average_emoji site_average) = Some status.
Proof.
  unfold get_site_average_emoji.
  repeat match goal with |- context [if ?b then _ else _] => destruct b end;
    eexists; reflexivity.
Qed.

(** The boundary values as binary64 floats, the numbers the script
    compares: the same statuses as on the exact decimals. *)
Lemma status_boundaries_binary64 :
  (status_of_symbol (Binary64.get_impact_emoji 20.0) = Some "Very Bad"
   /\ status_of_symbol (Binary64.get_impact_emoji 19.999) = Some "Bad"
   /\ status_of_symbol (Binary64.get_impact_emoji 0.0) = Some "Fine"
   /\ status_of_symbol (Binary64.get_impact_emoji (-0.01)) = Some "Great")
  /\ (status_of_symbol (Binary64.get_site_average_emoji 0.68) = Some "Fine"
      /\ status_of_symbol (Binary64.get_site_average_emoji 0.679999) = Some "Great"
      /\ status_of_symbol (Binary64.get_site_average_emoji 1.35) = Some "Bad"
      /\ status_of_symbol (Binary64.get_site_average_emoji 1.350001) = Some "Very Bad").
Proof.
  repeat split; vm_compute; reflexivity.
Qed.

(** C5.  At the boundary values the two classifications give the status
    of their threshold tables; every symbol either function returns is in
    the one legend, which pairs four distinct symbols with four distinct
    status names. *)
Theorem C5_status_boundaries :
  (status_of_symbol (get_impact_emoji 20) = Some "Very Bad"
   /\ status_of_symbol (get_impact_emoji (19999 # 1000)) = Some "Bad"
   /\ status_of_symbol (get_impact_emoji 0) = Some "Fine"
   /\ status_of_symbol (get_impact_emoji (- (1 # 100))) = Some "Great")
  /\ (status_of_symbol (get_site_average_emoji (68 # 100)) = Some "Fine"
      /\ status_of_symbol (get_site_average_emoji (679999 # 1000000)) = Some "Great"
      /\ status_of_symbol (get_site_average_emoji (135 # 100)) = Some "Bad"
      /\ status_of_symbol (get_site_average_emoji (1350001 # 1000000)) = Some "Very Bad")
  /\ (forall idle_impact,
         exists status, status_of_symbol (get_impact_emoji idle_impact) = Some status)
  /\ (forall site_average,
         exists status, status_of_symbol (get_site_average_emoji site_average) = Some status)
  /\ NoDup (map fst status_legend)
  /\ NoDup (map snd status_legend).
Proof.
  split; [repeat split; vm_compute; reflexivity|].
  split; [repeat split; vm_compute; reflexivity|].
  split; [exact impact_symbol_in_legend|].
  split; [exact site_symbol_in_legend|].
  split; repeat constructor; simpl; intuition discriminate.
Qed.

(* ================================================================== *)
(** * Aggregation *)


(** C8, as amended.  Within any reporting shift the move counts of the
    drivers add up to the number of the shift's records that name a
    driver, and over the shifts of the report to the number of matched
    records that name a driver: the sums fall short of the shift's record
    count and of [total_daily_moves] by the records with a blank driver
    cell, and equal them when there is none. *)
Theorem C8_move_counts_add_up (activity : list Activity) :
  let total_daily_moves := length activity in
  let blank a := negb (has_driver a) in
  (forall shift_name,
      (sum_nat (map Move_Count (shift_summary_of activity total_daily_moves shift_name))
       + length (filter (fun a => String.eqb (Reporting_Shift a) shift_name && blank a)
                        activity)
       = length (filter (fun a => String.eqb (Reporting_Shift a) shift_name) activity))%nat)
  /\ (sum_nat
        (map (fun shift_name =>
                sum_nat (map Move_Count
                             (shift_summary_of activity total_daily_moves shift_name)))
             (sorted_shifts_of activity))
      + length (filter blank activity)
      = total_daily_moves)%nat.
Proof.
  intros total_daily_moves blank. subst total_daily_moves blank. split.
  - intros shift_name. rewrite shift_summary_move_counts.
    rewrite <- !filter_filter_and. apply filter_split_length.
  - rewrite (map_ext _ _ (fun s => shift_summary_move_counts activity (length activity) s)).
    rewrite <- (filter_split_length has_driver activity).
    f_equal.
    transitivity
      (sum_nat (map (fun k => length (filter (fun a => String.eqb (Reporting_Shift a) k)
                                             (filter has_driver activity)))
                    (sorted_shifts_of activity))).
    + f_equal. apply map_ext. intros k. rewrite filter_filter_and.
      f_equal. apply filter_ext. intros a. apply andb_comm.
    + apply (group_sizes_sum Reporting_Shift).
      * apply sorted_shifts_NoDup.
      * intros a Ha. apply filter_In in Ha. apply sorted_shifts_In. exists a. tauto.
Qed.

(** The claim as stated fails on a blank driver cell: of the two 14:00
    records one names no driver, the shift's table has the single row of
    Ben with one move, and over the report the move counts add up to 1
    while [total_daily_moves] is 3. *)
Lemma C8_counterexample_blank_driver :
  outcome (@apply_overnight_logic (Demo.world (Some Demo.hook) Demo.table_blank_driver)
             (on_target_day Demo.the_day (clean_shift_codes Demo.table_blank_driver)))
  = inr Demo.blank_driver_activity
  /\ length Demo.blank_driver_activity = 3%nat
  /\ map (fun r => (Driver_name r, Move_Count r))
         (shift_summary_of Demo.blank_driver_activity 3 "1400")
     = [("Ben", 1%nat)]
  /\ length (filter (fun a => String.eqb (Reporting_Shift a) "1400")
                    Demo.blank_driver_activity)
     = 2%nat
  /\ sum_nat
       (map (fun shift_name =>
               sum_nat (map Move_Count
                            (shift_summary_of Demo.blank_driver_activity 3 shift_name)))
            (sorted_shifts_of Demo.blank_driver_activity))
     = 1%nat.
Proof.
  repeat split; vm_compute; reflexivity.
Qed.

(* ================================================================== *)
(** * The order of the shifts and their rendering *)

Lemma sort_key_order (a b : string) :
  String.leb (shift_sort_key a) (shift_sort_key b) = true ->
  implb (Py.contains "(Overnight)" b) (Py.contains "(Overnight)" a) = true.
Proof.
  unfold shift_sort_key.
  destruct (Py.contains "(Overnight)" a), (Py.contains "(Overnight)" b);
    simpl; try reflexivity.
  unfold String.leb. simpl. discriminate.
Qed.

(** C7.  The shifts of the report are the distinct reporting shifts of
    the day, in ascending order of their sort key, which is the label
    behind "0_" for a label with "(Overnight)" and behind "1_" for any
    other; so no overnight shift comes after a same-day shift. *)
Theorem C7_overnight_shifts_first (activity : list Activity) :
  let sorted_shifts := sorted_shifts_of activity in
  Permutation sorted_shifts (Py.unique (map Reporting_Shift activity))
  /\ Forall (fun shift_name =>
               shift_sort_key shift_name
               = (if Py.contains "(Overnight)" shift_name then "0_" else "1_") ++ shift_name)
            sorted_shifts
  /\ StronglySorted
       (fun a b => String.leb (shift_sort_key a) (shift_sort_key b) = true)
       sorted_shifts
  /\ StronglySorted
       (fun a b => implb (Py.contains "(Overnight)" b) (Py.contains "(Overnight)" a) = true)
       sorted_shifts.
Proof.
  intros sorted_shifts.
  assert (Hsorted : StronglySorted
                      (fun a b => String.leb (shift_sort_key a) (shift_sort_key b) = true)
                      sorted_shifts).
  { eapply strongly_sorted_impl;
      [| apply (sorted_strongly String.ltb shift_sort_key string_ltb_asym string_le_trans)].
    intros a b Hab. now apply string_ltb_false_leb. }
  split; [apply sorted_shifts_perm|]. split; [|split].
  - apply Forall_forall. intros s _. unfold shift_sort_key.
    destruct (Py.contains "(Overnight)" s); reflexivity.
  - exact Hsorted.
  - eapply strongly_sorted_impl; [|exact Hsorted]. exact sort_key_order.
Qed.

(** C10, as amended.  A shift that reaches rendering is a label of some
    matched record.  Its table has a row, and its block is the header
    followed by the table, exactly when one of the shift's records names a
    driver; when all of them have a blank driver cell the table is empty
    and the block is the header followed by the line for a shift without
    drivers. *)
Theorem C10_rendered_shift_has_rows (activity : list Activity) (total_daily_moves : nat) :
  Forall (fun shift_name =>
            let shift_activity :=
              filter (fun a => String.eqb (Reporting_Shift a) shift_name) activity in
            let table := shift_summary_of activity total_daily_moves shift_name in
            (0 < length shift_activity)%nat
            /\ ((existsb has_driver shift_activity = true
                 /\ (0 < length table)%nat
                 /\ shift_report activity total_daily_moves shift_name
                    = Py.join Py.nl
                        [ shift_header shift_name;
                          "```" ++ format_for_slack table ++ "```" ])
                \/ (existsb has_driver shift_activity = false
                    /\ table = []
                    /\ shift_report activity total_daily_moves shift_name
                       = Py.join Py.nl [ shift_header shift_name; NO_EMPLOYEE_DATA ])))
         (sorted_shifts_of activity).
Proof.
  apply Forall_forall. intros shift_name Hin. cbv zeta.
  apply sorted_shifts_In in Hin. destruct Hin as [a0 [Ha0 Hs0]].
  split.
  - assert (Hin : In a0 (filter (fun a => String.eqb (Reporting_Shift a) shift_name) activity))
      by (apply filter_In; split; [exact Ha0 | rewrite Hs0; apply String.eqb_refl]).
    destruct (filter _ activity); [contradiction | simpl; lia].
  - pose proof (shift_summary_rows_iff activity total_daily_moves shift_name) as Hrows.
    unfold shift_report, render_shift.
    destruct (existsb has_driver
                (filter (fun a => String.eqb (Reporting_Shift a) shift_name) activity))
      eqn:Eex.
    + left. split; [reflexivity|].
      apply existsb_exists in Eex. destruct Eex as [a [Ha Hd]].
      apply filter_In in Ha. destruct Ha as [Ha Hs]. apply String.eqb_eq in Hs.
      assert (Hne : shift_summary_of activity total_daily_moves shift_name <> [])
        by (apply Hrows; eauto).
      destruct (shift_summary_of activity total_daily_moves shift_name) as [|r rows];
        [congruence|].
      split; [simpl; lia | reflexivity].
    + right. split; [reflexivity|].
      destruct (shift_summary_of activity total_daily_moves shift_name) as [|r rows] eqn:E;
        [split; reflexivity|].
      exfalso.
      assert (Hne : r :: rows <> []) by discriminate.
      apply Hrows in Hne. destruct Hne as [a [Ha [Hs Hd]]].
      assert (Hex : existsb has_driver
                      (filter (fun a => String.eqb (Reporting_Shift a) shift_name) activity)
                    = true).
      { apply existsb_exists. exists a. split; [|exact Hd].
        apply filter_In. split; [exact Ha|]. rewrite Hs. apply String.eqb_refl. }
      congruence.
Qed.

(** The claim as stated fails: the only record of shift 2200 has a blank
    driver cell, the shift is in the report, its table is empty and its
    block is the line for a shift without drivers. *)
Lemma C10_counterexample_shift_without_driver :
  outcome (@apply_overnight_logic (Demo.world (Some Demo.hook) Demo.table_blank_driver)
             (on_target_day Demo.the_day (clean_shift_codes Demo.table_blank_driver)))
  = inr Demo.blank_driver_activity
  /\ In "2200" (sorted_shifts_of Demo.blank_driver_activity)
  /\ shift_summary_of Demo.blank_driver_activity 3 "2200" = []
  /\ shift_report Demo.blank_driver_activity 3 "2200"
     = Py.nl ++ "*22:00*" ++ Py.nl ++ "No employee data to analyze for this shift.".
Proof.
  split; [vm_compute; reflexivity|]. split; [vm_compute; tauto|].
  split; vm_compute; reflexivity.
Qed.

(* ================================================================== *)
(** * Further properties: the rendered blocks *)

Lemma py_len_app (a b : string) : Py.py_len (a ++ b) = (Py.py_len a + Py.py_len b)%nat.
Proof.
  induction a as [|c a IH]; simpl; [reflexivity|].
  destruct (Py.is_continuation c); rewrite IH; reflexivity.
Qed.

Lemma py_len_spaces (n : nat) : Py.py_len (Py.spaces n) = n.
Proof. induction n as [|n IH]; simpl; [reflexivity | now rewrite IH]. Qed.

Lemma py_len_dashes (n : nat) : Py.py_len (Py.repeat_str "-" n) = n.
Proof. induction n as [|n IH]; simpl; [reflexivity | now rewrite IH]. Qed.

Lemma py_len_ljust (width : nat) (s : string) :
  Py.py_len (Py.ljust width s) = Nat.max width (Py.py_len s).
Proof.
  unfold Py.ljust. rewrite py_len_app, py_len_spaces. lia.
Qed.

Lemma list_max_ge (l : list nat) (n : nat) : In n l -> (n <= Py.list_max l)%nat.
Proof.
  induction l as [|m l IH]; simpl; [tauto|].
  intros [->|H]; [lia | specialize (IH H); lia].
Qed.

Lemma format_summary_box_lines (summary_parts : list string) :
  format_summary_box summary_parts = Py.join Py.nl (summary_box_lines summary_parts).
Proof. reflexivity. Qed.

(** The summary box is a rectangle: two border lines around one line per
    entry, each line as wide as the widest entry plus the frame. *)
Theorem summary_box_is_rectangular (summary_parts : list string) :
  summary_parts <> [] ->
  format_summary_box summary_parts = Py.join Py.nl (summary_box_lines summary_parts)
  /\ length (summary_box_lines summary_parts) = (length summary_parts + 2)%nat
  /\ Forall (fun line =>
               Py.py_len line = (Py.list_max (map Py.py_len summary_parts) + 4)%nat)
            (summary_box_lines summary_parts).
Proof.
  intros _. split; [reflexivity|]. unfold summary_box_lines. split.
  - rewrite length_app. simpl. rewrite length_map. lia.
  - set (w := Py.list_max (map Py.py_len summary_parts)).
    assert (Hsep : Py.py_len ("+-" ++ Py.repeat_str "-" w ++ "-+") = (w + 4)%nat).
    { rewrite !py_len_app, py_len_dashes. simpl. lia. }
    apply Forall_app. split; [constructor; [exact Hsep|] | repeat constructor; exact Hsep].
    apply Forall_map, Forall_forall. intros line Hline.
    rewrite !py_len_app, py_len_ljust. simpl.
    assert (Py.py_len line <= w)%nat by (apply list_max_ge, in_map, Hline).
    lia.
Qed.

Lemma summary_box_witness :
  idle_impact_key <> []
  /\ Forall (fun line => Py.py_len line = 63%nat) (summary_box_lines idle_impact_key).
Proof.
  assert (Hne : idle_impact_key <> []) by discriminate.
  split; [exact Hne|].
  exact (proj2 (proj2 (summary_box_is_rectangular idle_impact_key Hne))).
Defined.

Lemma py_len_join (sep : string) (parts : list string) :
  Py.py_len (Py.join sep parts)
  = (sum_nat (map Py.py_len parts) + (length parts - 1) * Py.py_len sep)%nat.
Proof.
  unfold Py.join. induction parts as [|p parts IH]; simpl; [reflexivity|].
  destruct parts as [|q parts]; [simpl; lia|].
  rewrite !py_len_app, IH. simpl. lia.
Qed.

Lemma pad_cells_widths (widths : list nat) (cells : list string) :
  Forall2 (fun c w => (Py.py_len c <= w)%nat) cells widths ->
  map Py.py_len (pad_cells widths cells) = widths.
Proof.
  unfold pad_cells. induction 1 as [|c w cells widths Hcw _ IH]; simpl; [reflexivity|].
  rewrite py_len_ljust, IH. f_equal. lia.
Qed.

Lemma pad_cells_length (widths : list nat) (cells : list string) :
  length cells = length widths -> length (pad_cells widths cells) = length widths.
Proof.
  intros H. unfold pad_cells. rewrite length_map, length_combine. lia.
Qed.

Lemma table_col_widths_length (df : list SummaryRow) : length (table_col_widths df) = 5%nat.
Proof. reflexivity. Qed.

Lemma cell_fits (i : nat) (r : SummaryRow) (df : list SummaryRow) (header : nat) :
  In r df ->
  (Py.py_len (nth i (display_row r) "")
   <= Nat.max
        (Py.list_max
           (map (fun cells => Py.py_len (nth i cells "")) (map display_row df)))
        header)%nat.
Proof.
  intros Hr.
  assert (Py.py_len (nth i (display_row r) "")
          <= Py.list_max
               (map (fun cells => Py.py_len (nth i cells "")) (map display_row df)))%nat.
  { apply list_max_ge. rewrite map_map. apply (in_map (fun x => Py.py_len (nth i (display_row x) ""))).
    exact Hr. }
  lia.
Qed.

Lemma row_cells_fit (r : SummaryRow) (df : list SummaryRow) :
  In r df ->
  Forall2 (fun c w => (Py.py_len c <= w)%nat) (display_row r) (table_col_widths df).
Proof.
  intros Hr. unfold table_col_widths.
  cbn [headers length seq combine map fst snd].
  repeat constructor.
  - exact (cell_fits 0 r df _ Hr).
  - exact (cell_fits 1 r df _ Hr).
  - exact (cell_fits 2 r df _ Hr).
  - exact (cell_fits 3 r df _ Hr).
  - exact (cell_fits 4 r df _ Hr).
Qed.

Lemma header_cells_fit (df : list SummaryRow) :
  Forall2 (fun c w => (Py.py_len c <= w)%nat) headers (table_col_widths df).
Proof.
  unfold table_col_widths.
  cbn [headers length seq combine map fst snd].
  repeat constructor; apply Nat.le_max_r.
Qed.

Lemma padded_line_width (df : list SummaryRow) (cells : list string) :
  Forall2 (fun c w => (Py.py_len c <= w)%nat) cells (table_col_widths df) ->
  Py.py_len ("| " ++ Py.join " | " (pad_cells (table_col_widths df) cells) ++ " |")
  = (sum_nat (table_col_widths df) + 16)%nat.
Proof.
  intros Hfit.
  rewrite !py_len_app, py_len_join, pad_cells_widths by exact Hfit.
  rewrite pad_cells_length, table_col_widths_length
    by (rewrite (Forall2_length Hfit); reflexivity).
  simpl. lia.
Qed.

Lemma separator_width (df : list SummaryRow) :
  Py.py_len ("+-" ++ Py.join "-+-" (map (Py.repeat_str "-") (table_col_widths df)) ++ "-+")
  = (sum_nat (table_col_widths df) + 16)%nat.
Proof.
  rewrite !py_len_app, py_len_join, map_map, length_map, table_col_widths_length.
  rewrite (map_ext _ (fun w => w) py_len_dashes), map_id.
  simpl. lia.
Qed.

Lemma format_for_slack_lines (df : list SummaryRow) :
  format_for_slack df = Py.join Py.nl (table_lines df).
Proof. reflexivity. Qed.

(** A shift's table is a rectangle: a border, the header line, a border,
    one line per driver and a closing border; every line is as wide as
    the five column widths plus the frame, and each column is as wide as
    its widest cell or its header. *)
Theorem table_is_rectangular (df : list SummaryRow) :
  df <> [] ->
  format_for_slack df = Py.join Py.nl (table_lines df)
  /\ length (table_lines df) = (length df + 4)%nat
  /\ Forall (fun line => Py.py_len line = (sum_nat (table_col_widths df) + 16)%nat)
            (table_lines df)
  /\ Forall2 (fun header width => (Py.py_len header <= width)%nat)
             headers (table_col_widths df)
  /\ Forall (fun r =>
               Forall2 (fun cell width => (Py.py_len cell <= width)%nat)
                       (display_row r) (table_col_widths df))
            df.
Proof.
  intros _. split; [reflexivity|]. split; [|split; [|split]].
  - unfold table_lines. simpl. rewrite length_app, !length_map. simpl. lia.
  - unfold table_lines.
    pose proof (separator_width df) as Hsep.
    pose proof (padded_line_width df headers (header_cells_fit df)) as Hhead.
    repeat (apply Forall_cons; [assumption|]).
    apply Forall_app. split; [|repeat constructor; exact Hsep].
    rewrite !Forall_map. apply Forall_forall. intros r Hr.
    apply padded_line_width, row_cells_fit, Hr.
  - apply header_cells_fit.
  - apply Forall_forall. intros r Hr. now apply row_cells_fit.
Qed.

Lemma table_witness :
  shift_summary_of Demo.numeric_activity 4 "1400" <> []
  /\ Forall (fun line => Py.py_len line = 62%nat)
            (table_lines (shift_summary_of Demo.numeric_activity 4 "1400"))
  /\ length (table_lines (shift_summary_of Demo.numeric_activity 4 "1400")) = 6%nat.
Proof.
  assert (Hne : shift_summary_of Demo.numeric_activity 4 "1400" <> [])
    by (vm_compute; discriminate).
  split; [exact Hne|].
  pose proof (table_is_rectangular _ Hne) as [_ [Hlen [Hwidth _]]].
  split; [exact Hwidth | exact Hlen].
Defined.

(* ================================================================== *)
(** * Further properties: the top incidents *)

Lemma strongly_sorted_app {A : Type} (R : A -> A -> Prop) (l1 l2 : list A) :
  StronglySorted R (l1 ++ l2) ->
  StronglySorted R l1 /\ Forall (fun a => Forall (R a) l2) l1.
Proof.
  induction l1 as [|x l1 IH]; simpl; intros H.
  - split; constructor.
  - inversion H as [|? ? Hs Hall]; subst. destruct (IH Hs) as [Hs1 Hcross].
    apply Forall_app in Hall. destruct Hall as [Hall1 Hall2].
    split; constructor; auto.
Qed.

(** [nlargest(n)] keeps [min n len] records, largest idle time first, and
    none of the records it leaves out has a larger idle time than one it
    keeps. *)
Theorem nlargest_keeps_the_largest (n : nat) (activity : list Activity) :
  length (nlargest n activity) = Nat.min n (length activity)
  /\ StronglySorted
       (fun a b => (Idle_Time (record b) <= Idle_Time (record a))%Q)
       (nlargest n activity)
  /\ exists rest,
       Permutation (nlargest n activity ++ rest) activity
       /\ Forall (fun kept =>
                    Forall (fun left_out =>
                              (Idle_Time (record left_out) <= Idle_Time (record kept))%Q)
                           rest)
                 (nlargest n activity).
Proof.
  unfold nlargest.
  set (s := Py.sorted (fun x y => Py.Qlt_bool y x) (fun a => Idle_Time (record a)) activity).
  assert (Hperm : Permutation s activity) by apply sorted_perm.
  assert (Hsorted : StronglySorted
                      (fun a b => (Idle_Time (record b) <= Idle_Time (record a))%Q) s).
  { eapply strongly_sorted_impl;
      [| apply (sorted_strongly (fun x y => Py.Qlt_bool y x) (fun a => Idle_Time (record a)))].
    - unfold key_le. intros a b Hab. now apply Qlt_bool_false.
    - intros x y. apply Qlt_bool_asym.
    - intros x y z Hxy Hyz. apply Qlt_bool_false. apply Qlt_bool_false in Hxy, Hyz.
      now apply Qle_trans with y. }
  rewrite <- (firstn_skipn n s) in Hsorted, Hperm.
  destruct (strongly_sorted_app _ _ _ Hsorted) as [Hfirst Hcross].
  split; [|split; [exact Hfirst|]].
  - rewrite length_firstn. f_equal. subst s. apply Permutation_length, sorted_perm.
  - exists (skipn n s). split; [exact Hperm | exact Hcross].
Qed.

(* ================================================================== *)
(** * Further properties: cleaned codes and labels *)

Lemma split_on_fields_clean (sep : ascii) (s : string) :
  Forall (fun field => has_char sep field = false) (Py.split_on sep s).
Proof.
  induction s as [|c s IH]; simpl; [repeat constructor|].
  destruct (Ascii.eqb c sep) eqn:E; [constructor; [reflexivity | exact IH]|].
  destruct (Py.split_on sep s) as [|field fields]; [repeat constructor; simpl; now rewrite E|].
  inversion IH as [|? ? Hf Hrest]; subst.
  constructor; [simpl; now rewrite E | exact Hrest].
Qed.

Lemma last_cons_nonempty {A : Type} (x d : A) (l : list A) :
  l <> [] -> last (x :: l) d = last l d.
Proof. destruct l; [congruence | reflexivity]. Qed.

Lemma last_field_clean (sep : ascii) (s : string) :
  has_char sep (last (Py.split_on sep s) "") = false.
Proof.
  pose proof (split_on_fields_clean sep s) as H.
  induction H as [|x l Hx Hl IHl]; [reflexivity|].
  destruct l; [exact Hx | exact IHl].
Qed.

Lemma split_on_single (sep : ascii) (s field : string) :
  Py.split_on sep s = [field] -> field = s /\ has_char sep s = false.
Proof.
  intros E. pose proof (last_field_clean sep s) as Hclean. rewrite E in Hclean.
  simpl in Hclean. split; [|].
  - revert field E Hclean. induction s as [|c s IH]; simpl; intros field E Hclean.
    + now injection E as <-.
    + destruct (Ascii.eqb c sep) eqn:Ec.
      * injection E as _ E. now apply split_on_nonempty in E.
      * destruct (Py.split_on sep s) as [|f fs] eqn:Es; [now apply split_on_nonempty in Es|].
        injection E as <- ->. f_equal. apply (IH f eq_refl).
        simpl in Hclean. now rewrite Ec in Hclean.
  - revert field E Hclean. induction s as [|c s IH]; simpl; intros field E Hclean.
    + reflexivity.
    + destruct (Ascii.eqb c sep) eqn:Ec.
      * injection E as _ E. now apply split_on_nonempty in E.
      * destruct (Py.split_on sep s) as [|f fs] eqn:Es; [now apply split_on_nonempty in Es|].
        injection E as <- ->. simpl in Hclean. rewrite Ec in Hclean. simpl in Hclean.
        simpl. apply (IH f eq_refl Hclean).
Qed.

Lemma split_on_last_suffix (sep : ascii) (s : string) :
  last (Py.split_on sep s) "" = s
  \/ exists before, s = before ++ String sep (last (Py.split_on sep s) "").
Proof.
  induction s as [|c s IH]; [now left|].
  cbn [Py.split_on].
  destruct (Ascii.eqb_spec c sep) as [->|Hne].
  - right. rewrite last_cons_nonempty by apply split_on_nonempty.
    destruct IH as [IH|[before IH]].
    + exists "". cbn [append]. now rewrite IH.
    + exists (String sep before). cbn [append]. now rewrite <- IH.
  - destruct (Py.split_on sep s) as [|f fs] eqn:E; [now apply split_on_nonempty in E|].
    destruct fs as [|g fs].
    + left. destruct (split_on_single sep s f E) as [-> _]. reflexivity.
    + right. rewrite last_cons_nonempty by discriminate.
      destruct IH as [IH|[before IH]].
      * exfalso. pose proof (last_field_clean sep s) as Hclean.
        rewrite E, IH in Hclean.
        rewrite (split_on_no_sep sep s Hclean) in E. discriminate.
      * exists (String c before). cbn [append]. f_equal. exact IH.
Qed.

(** The cleaned code has no '-', it is the end of the shift code, right
    after a '-' unless it is the whole code, and cleaning it again changes
    nothing. *)
Theorem clean_shift_is_last_field (shift_code : string) :
  has_char "-" (clean_shift shift_code) = false
  /\ (clean_shift shift_code = shift_code
      \/ exists before, shift_code = before ++ "-" ++ clean_shift shift_code)
  /\ clean_shift (clean_shift shift_code) = clean_shift shift_code.
Proof.
  assert (Hclean : has_char "-" (clean_shift shift_code) = false)
    by apply last_field_clean.
  split; [exact Hclean|]. split.
  - apply split_on_last_suffix.
  - now apply clean_shift_plain.
Qed.

Lemma append_empty_r (s : string) : s ++ "" = s.
Proof. induction s as [|c s IH]; simpl; [reflexivity | now rewrite IH]. Qed.

Lemma append_assoc3 (a b c : string) : (a ++ b) ++ c = a ++ b ++ c.
Proof. induction a as [|x a IH]; simpl; [reflexivity | now rewrite IH]. Qed.

Lemma prefix_needs_first (c x : ascii) (old rest : string) :
  Ascii.eqb x c = false -> String.prefix (String c old) (String x rest) = false.
Proof.
  intros H. simpl. destruct (ascii_dec c x) as [->|_]; [|reflexivity].
  now rewrite Ascii.eqb_refl in H.
Qed.

Lemma replace_overnight_plain (name : string) :
  has_char " " name = false -> Py.replace " (Overnight)" "" name = name.
Proof.
  unfold Py.replace. induction name as [|x name IH]; [reflexivity|].
  cbn [has_char]. intros H. apply orb_false_iff in H. destruct H as [Hx Hrest].
  cbn [Py.replace_from]. rewrite (prefix_needs_first " " x _ name Hx).
  now rewrite IH.
Qed.

Lemma replace_overnight_suffix (cleaned : string) :
  has_char " " cleaned = false ->
  Py.replace " (Overnight)" "" (cleaned ++ " (Overnight)") = cleaned.
Proof.
  unfold Py.replace. induction cleaned as [|x cleaned IH]; [reflexivity|].
  cbn [has_char]. intros H. apply orb_false_iff in H. destruct H as [Hx Hrest].
  cbn [append Py.replace_from].
  rewrite (prefix_needs_first " " x _ (cleaned ++ " (Overnight)") Hx).
  now rewrite IH.
Qed.

Lemma contains_overnight_suffix (cleaned : string) :
  Py.contains "(Overnight)" (cleaned ++ " (Overnight)") = true.
Proof.
  induction cleaned as [|x cleaned IH]; [reflexivity|].
  cbn [append Py.contains]. rewrite IH. apply orb_true_r.
Qed.

Lemma contains_overnight_needs_paren (name : string) :
  has_char "(" name = false -> Py.contains "(Overnight)" name = false.
Proof.
  induction name as [|x name IH]; [reflexivity|].
  cbn [has_char]. intros H. apply orb_false_iff in H. destruct H as [Hx Hrest].
  cbn [Py.contains]. rewrite (prefix_needs_first "(" x _ name Hx). now rewrite IH.
Qed.

(** The header of a reclassified shift is the header of the plain shift
    with the note "(from previous day)": the suffix is taken off before
    the colon goes in.  This holds for a cleaned code without blank and
    without parenthesis, as the numeric codes are. *)
Theorem overnight_header_is_plain_header_with_note (cleaned : string) :
  has_char " " cleaned = false ->
  has_char "(" cleaned = false ->
  shift_header cleaned
  = Py.nl ++ "*" ++ (Py.slice_to 2 cleaned ++ ":" ++ Py.slice_from 2 cleaned) ++ "*"
  /\ shift_header (cleaned ++ " (Overnight)")
     = shift_header cleaned ++ " (from previous day)".
Proof.
  intros Hblank Hparen. unfold shift_header.
  rewrite replace_overnight_plain, replace_overnight_suffix by assumption.
  rewrite contains_overnight_suffix, contains_overnight_needs_paren by assumption.
  split; [reflexivity|].
  rewrite !append_assoc3. reflexivity.
Qed.

Lemma overnight_header_witness :
  has_char " " "2200" = false
  /\ has_char "(" "2200" = false
  /\ shift_header "2200" = Py.nl ++ "*22:00*"
  /\ shift_header "2200 (Overnight)" = Py.nl ++ "*22:00* (from previous day)".
Proof.
  split; [reflexivity|]. split; [reflexivity|].
  exact (overnight_header_is_plain_header_with_note "2200" eq_refl eq_refl).
Defined.

(* ================================================================== *)
(** * Further properties: the labels of a run *)

Lemma set_overnight_keeps_rows (mask : list bool) (activity : list Activity) :
  length mask = length activity ->
  map record (set_overnight mask activity) = map record activity
  /\ map Cleaned_Shift (set_overnight mask activity) = map Cleaned_Shift activity.
Proof.
  unfold set_overnight. revert mask.
  induction activity as [|a activity IH]; intros [|b mask] Hlen; try discriminate.
  - split; reflexivity.
  - injection Hlen as Hlen. destruct (IH mask Hlen) as [Hrec Hclean].
    simpl. rewrite Hrec, Hclean. destruct b; split; reflexivity.
Qed.

(** Whatever the codes of the day, the classification returns, keeps the
    records and their cleaned codes in order, and gives each record either
    its cleaned code or its cleaned code with " (Overnight)" as label. *)
Theorem labels_are_cleaned_codes `{Runtime} (matched : list (ActivityRecord * string)) :
  exists t activity,
    apply_overnight_logic matched = (t, inr activity)
    /\ map record activity = map fst matched
    /\ map Cleaned_Shift activity = map snd matched
    /\ Forall (fun a => Reporting_Shift a = Cleaned_Shift a
                        \/ Reporting_Shift a = Cleaned_Shift a ++ " (Overnight)")
              activity.
Proof.
  unfold apply_overnight_logic.
  set (plain := map (fun rc : ActivityRecord * string =>
                       mk_activity (fst rc) (snd rc) (snd rc)) matched).
  assert (Hrec : map record plain = map fst matched)
    by (unfold plain; rewrite map_map; reflexivity).
  assert (Hclean : map Cleaned_Shift plain = map snd matched)
    by (unfold plain; rewrite map_map; reflexivity).
  assert (Hplain : Forall (fun a => Reporting_Shift a = Cleaned_Shift a) plain)
    by (unfold plain; rewrite Forall_map; apply Forall_forall; intros; reflexivity).
  destruct (overnight_condition plain) as [mask|] eqn:E.
  - exists [], (set_overnight mask plain). split; [reflexivity|].
    assert (Hlen : length mask = length plain).
    { unfold overnight_condition in E.
      destruct (to_numeric_column (map Cleaned_Shift plain)) as [nums|] eqn:En;
        [|discriminate].
      injection E as <-. rewrite length_map, length_combine, length_map.
      assert (Hn : length nums = length (map Cleaned_Shift plain)).
      { clear -En. revert nums En. generalize (map Cleaned_Shift plain). intros cells.
        induction cells as [|c cells IH]; simpl; intros nums En.
        - now injection En as <-.
        - destruct (to_numeric c); [|discriminate].
          destruct (to_numeric_column cells) as [nums'|]; [|discriminate].
          injection En as <-. simpl. f_equal. now apply IH. }
      rewrite Hn, length_map. lia. }
    destruct (set_overnight_keeps_rows mask plain Hlen) as [Hr Hc].
    rewrite Hr, Hc. repeat split; auto.
    unfold set_overnight. rewrite Forall_map. apply Forall_forall.
    intros [a b] Hab. apply in_combine_l in Hab. rewrite Forall_forall in Hplain.
    simpl. destruct b; simpl; [now right | left; now apply Hplain].
  - eexists _, plain. split; [reflexivity|]. repeat split; auto.
    eapply Forall_impl; [|exact Hplain]. intros a Ha. now left.
Qed.

(* ================================================================== *)
(** * Further properties: what a run sends *)

Lemma join_empty_cons (part : string) (parts : list string) :
  Py.join "" (part :: parts) = part ++ Py.join "" parts.
Proof.
  unfold Py.join. destruct parts as [|q parts]; simpl; [now rewrite append_empty_r|].
  reflexivity.
Qed.

Lemma join_empty_app (l1 l2 : list string) :
  Py.join "" (l1 ++ l2) = Py.join "" l1 ++ Py.join "" l2.
Proof.
  induction l1 as [|p l1 IH]; [reflexivity|].
  change ((p :: l1) ++ l2)%list with (p :: (l1 ++ l2))%list.
  rewrite !join_empty_cons, IH, append_assoc3. reflexivity.
Qed.

Lemma find_split_index_bounds (sorted_shifts : list string) :
  -1 <= find_split_index sorted_shifts < Z.of_nat (length sorted_shifts).
Proof.
  unfold find_split_index. rewrite scan_split_last.
  destruct (last_index_where starts_before_6 sorted_shifts) as [k|] eqn:E; [|lia].
  destruct (last_index_where_some _ _ _ E) as [name [Hk _]].
  assert (k < length sorted_shifts)%nat by (apply nth_error_Some; congruence).
  lia.
Qed.

(** When the report is split, nothing is lost and nothing is sent twice:
    the first message carries the summary and the fragments up to the
    split point, the second the continuation header and the fragments
    after it, each at least one fragment, and the fragments of the two
    messages put together are the fragments of the report in order. *)
Theorem split_keeps_every_fragment `{Runtime}
  (url : string) (message_parts sorted_shifts all_shift_reports : list string) :
  SLACK_WEBHOOK_URL = Some url ->
  Py.contains PLACEHOLDER_URL url = false ->
  length all_shift_reports = length sorted_shifts ->
  (find_split_index sorted_shifts =? -1)
  || (find_split_index sorted_shifts =? Z.of_nat (length all_shift_reports) - 1) = false ->
  exists first_part second_part,
    posts (trace (send_report message_parts sorted_shifts all_shift_reports))
    = [(url, Py.join Py.nl message_parts ++ Py.join "" first_part);
       (url, CONTINUED ++ Py.join "" second_part)]
    /\ (first_part ++ second_part)%list = all_shift_reports
    /\ Z.of_nat (length first_part) = find_split_index sorted_shifts + 1
    /\ (0 < length first_part)%nat
    /\ (0 < length second_part)%nat
    /\ Py.join "" first_part ++ Py.join "" second_part = Py.join "" all_shift_reports.
Proof.
  intros Hurl Hreal Hlen Hsplit.
  pose proof (find_split_index_bounds sorted_shifts) as Hbounds.
  apply orb_false_iff in Hsplit. destruct Hsplit as [Hne1 Hne2].
  apply Z.eqb_neq in Hne1, Hne2.
  set (k := Z.to_nat (find_split_index sorted_shifts + 1)).
  exists (firstn k all_shift_reports), (skipn k all_shift_reports).
  assert (Hk : (0 < k < length all_shift_reports)%nat) by (subst k; lia).
  split; [|split; [|split; [|split; [|split]]]].
  - unfold send_report.
    apply Z.eqb_neq in Hne1, Hne2. rewrite Hne1, Hne2. cbn [orb]. fold k.
    destruct (send_configured url
                (Py.join Py.nl message_parts ++ Py.join "" (firstn k all_shift_reports))
                Hurl Hreal) as [line1 ->].
    destruct (send_configured url
                (CONTINUED ++ Py.join "" (skipn k all_shift_reports))
                Hurl Hreal) as [line2 ->].
    reflexivity.
  - apply firstn_skipn.
  - rewrite length_firstn. subst k. lia.
  - rewrite length_firstn. lia.
  - rewrite length_skipn. lia.
  - rewrite <- join_empty_app, firstn_skipn. reflexivity.
Qed.

Lemma split_witness :
  @SLACK_WEBHOOK_URL (Demo.world (Some Demo.hook) Demo.table_early) = Some Demo.hook
  /\ Py.contains PLACEHOLDER_URL Demo.hook = false
  /\ length ["<overnight>"; "<early>"; "<afternoon>"]
     = length ["2200 (Overnight)"; "0400"; "1400"]
  /\ (find_split_index ["2200 (Overnight)"; "0400"; "1400"] =? -1)
     || (find_split_index ["2200 (Overnight)"; "0400"; "1400"]
         =? Z.of_nat (length ["<overnight>"; "<early>"; "<afternoon>"]) - 1) = false
  /\ exists first_part second_part,
       posts (trace (@send_report (Demo.world (Some Demo.hook) Demo.table_early)
                       ["<summary>"] ["2200 (Overnight)"; "0400"; "1400"]
                       ["<overnight>"; "<early>"; "<afternoon>"]))
       = [(Demo.hook, Py.join Py.nl ["<summary>"] ++ Py.join "" first_part);
          (Demo.hook, CONTINUED ++ Py.join "" second_part)]
       /\ (first_part ++ second_part)%list = ["<overnight>"; "<early>"; "<afternoon>"].
Proof.
  split; [reflexivity|]. split; [reflexivity|]. split; [reflexivity|].
  split; [reflexivity|].
  destruct (@split_keeps_every_fragment (Demo.world (Some Demo.hook) Demo.table_early)
              Demo.hook ["<summary>"] ["2200 (Overnight)"; "0400"; "1400"]
              ["<overnight>"; "<early>"; "<afternoon>"] eq_refl eq_refl eq_refl eq_refl)
    as [first_part [second_part [Hposts [Hall _]]]].
  exists first_part, second_part. split; assumption.
Defined.

(** With a webhook URL in the environment a run never posts more than two
    messages, it posts to that URL only, and no exception leaves it,
    whatever the loader, the date parser and the HTTP call do. *)
Theorem run_posts_at_most_twice `{Runtime} (url file_path target_day_str : string) :
  SLACK_WEBHOOK_URL = Some url ->
  outcome (analyze_day_performance file_path target_day_str) = inr tt
  /\ (length (posts (trace (analyze_day_performance file_path target_day_str))) <= 2)%nat
  /\ Forall (fun p => fst p = url)
            (posts (trace (analyze_day_performance file_path target_day_str))).
Proof.
  intros Hurl.
  assert (Herr : forall e,
             let run := try_except (([] : list event), inl e)
                          (fun e => bind (print ("An unexpected error occurred: " ++ str_exn e))
                                      (fun _ => send_to_slack
                                                  ("An unexpected error occurred in the daily report: "
                                                     ++ str_exn e))) in
             outcome run = inr tt
             /\ (length (posts (trace run)) <= 2)%nat
             /\ Forall (fun p => fst p = url) (posts (trace run))).
  { intros e. cbv zeta. unfold try_except. cbn [bind print emit].
    destruct (send_posts_once url
                ("An unexpected error occurred in the daily report: " ++ str_exn e) Hurl)
      as [t [-> Hp]].
    cbn [outcome trace fst snd app]. simpl posts. rewrite Hp.
    destruct (Py.contains PLACEHOLDER_URL url); simpl; repeat split; repeat constructor. }
  unfold analyze_day_performance, analyze_day_body.
  destruct (read_csv file_path) as [e|df]; cbn [lift bind app].
  - exact (Herr e).
  - destruct (to_datetime target_day_str) as [e|target_date]; cbn [lift bind app].
    + exact (Herr e).
    + destruct (on_target_day target_date (clean_shift_codes df)) as [|rc matched].
      * destruct (send_posts_once url (no_data_message target_day_str) Hurl) as [t [-> Hp]].
        cbn [bind print emit try_except outcome trace fst snd app]. simpl posts. rewrite Hp.
        destruct (Py.contains PLACEHOLDER_URL url); simpl; repeat split; repeat constructor.
      * unfold apply_overnight_logic.
        destruct (overnight_condition _);
          cbn [bind ret print emit app];
          match goal with
          | |- context [send_report ?mp ?sh ?rp] =>
              destruct (send_report_posts url mp sh rp Hurl) as [t [-> [Hlen Hto]]]
          end;
          cbn [try_except outcome trace fst snd app]; simpl posts; auto.
Qed.

Lemma run_posts_witness :
  @SLACK_WEBHOOK_URL (Demo.world (Some Demo.hook) Demo.table_early) = Some Demo.hook
  /\ length (posts (trace (@analyze_day_performance
                             (Demo.world (Some Demo.hook) Demo.table_early)
                             "data.csv" "2024-03-05"))) = 2%nat
  /\ outcome (@analyze_day_performance (Demo.world (Some Demo.hook) Demo.table_early)
                "data.csv" "2024-03-05") = inr tt.
Proof.
  split; [reflexivity|]. split; [vm_compute; reflexivity|].
  exact (proj1 (@run_posts_at_most_twice (Demo.world (Some Demo.hook) Demo.table_early)
                  Demo.hook "data.csv" "2024-03-05" eq_refl)).
Defined.

(** A table that cannot be loaded, or a target day that cannot be parsed,
    ends the run with the error line on stdout and one error notice handed
    to the webhook; no report is built and no exception leaves the run. *)
Theorem load_failure_is_reported `{Runtime} (url file_path target_day_str : string) (e : exn) :
  SLACK_WEBHOOK_URL = Some url ->
  read_csv file_path = inl e
  \/ (exists df, read_csv file_path = inr df /\ to_datetime target_day_str = inl e) ->
  analyze_day_performance file_path target_day_str
  = bind (print ("An unexpected error occurred: " ++ str_exn e))
         (fun _ => send_to_slack
                     ("An unexpected error occurred in the daily report: " ++ str_exn e))
  /\ outcome (analyze_day_performance file_path target_day_str) = inr tt
  /\ posts (trace (analyze_day_performance file_path target_day_str))
     = if Py.contains PLACEHOLDER_URL url then []
       else [(url, "An unexpected error occurred in the daily report: " ++ str_exn e)].
Proof.
  intros Hurl Hfail.
  assert (Hrun : analyze_day_performance file_path target_day_str
                 = bind (print ("An unexpected error occurred: " ++ str_exn e))
                        (fun _ => send_to_slack
                                    ("An unexpected error occurred in the daily report: "
                                       ++ str_exn e))).
  { unfold analyze_day_performance, analyze_day_body.
    destruct Hfail as [Hread|[df [Hread Hdate]]].
    - rewrite Hread. cbn [lift bind try_except].
      destruct (bind _ _) as [t r]. reflexivity.
    - rewrite Hread. cbn [lift bind app]. rewrite Hdate. cbn [lift bind try_except].
      destruct (bind _ _) as [t r]. reflexivity. }
  rewrite Hrun.
  destruct (send_posts_once url
              ("An unexpected error occurred in the daily report: " ++ str_exn e) Hurl)
    as [t [Hsend Hp]].
  cbn [bind print emit]. rewrite Hsend. cbn [outcome trace fst snd app].
  split; [reflexivity|]. split; [reflexivity|]. simpl posts. exact Hp.
Qed.

Lemma load_failure_witness :
  @SLACK_WEBHOOK_URL (Demo.world (Some Demo.hook) Demo.table_numeric) = Some Demo.hook
  /\ @read_csv (Demo.world (Some Demo.hook) Demo.table_numeric) "missing.csv"
     = inl (OSError "No such file or directory")
  /\ posts (trace (@analyze_day_performance (Demo.world (Some Demo.hook) Demo.table_numeric)
                     "missing.csv" "2024-03-05"))
     = [(Demo.hook,
         "An unexpected error occurred in the daily report: No such file or directory")].
Proof.
  split; [reflexivity|]. split; [reflexivity|].
  exact (proj2 (proj2 (@load_failure_is_reported
                         (Demo.world (Some Demo.hook) Demo.table_numeric)
                         Demo.hook "missing.csv" "2024-03-05"
                         (OSError "No such file or directory") eq_refl
                         (or_introl eq_refl)))).
Defined.
